(** * future_roi_backend: the projection and scoring engine

    A shallow embedding of the pure computations behind the Flask routes of
    the backend, and the properties of them that the specification states.

    Source functions embedded here:
    - [src/routes/portfolio.py]: [calculate_investment_returns],
      [compare_investments], [generate_investment_recommendations],
      [sip_calculator], [track_expenses], [calculate_investment_capacity],
      [analyze_expenses];
    - [src/routes/zones.py]: [calculate_roi_for_zone];
    - [src/routes/dashboard.py]: [calculate_portfolio_risk],
      [calculate_diversification_score], [generate_risk_recommendations];
    - [src/routes/investments.py]: [calculate_financial_health_score],
      [get_health_recommendations], [get_default_recommendations];
    - [src/routes/ai_services.py]: [perform_risk_assessment].

    Numbers.  Python floats are read as exact numbers: no rounding error,
    no overflow, no NaN.  Where the source raises to a real exponent
    ([horizon_months / 12] years) the numbers are Stdlib reals and the power
    is [Rpower]; where every exponent is an integer (the SIP calculator and
    the zone ROI, whose inputs are parsed as integers) the numbers are
    rationals [Q], and the definitions evaluate.  Database integer columns are
    [Z], nullable ones [option Z].

    Exceptions.  The only exception the embedded arithmetic can raise is
    [ZeroDivisionError]; it is carried by the [result] monad below.  The
    routes catch it and answer with a 500 error envelope.

    Range.  The code computes on doubles: a float power beyond double range
    raises [OverflowError], an integer above [2^53] is rounded when a float
    meets it, and sums and products are rounded.  A property that says that
    a result is returned, or that compares the figures of a result, is
    therefore stated where it holds of the doubles as well, within the
    bounds of the module [Doubles]; the proofs are on the exact reading and
    do not use the bounds. *)

From Stdlib Require Import ZArith QArith Qround Qpower Reals Floats Lra Lia Lqa.
From stdpp Require Import gmap strings sorting.

(** ** Python run-time notions shared by the modules *)

Inductive exn : Type :=
| ZeroDivisionError.

Inductive result (A : Type) : Type :=
| Ok (a : A)
| Raise (e : exn).

Arguments Ok {A} a.
Arguments Raise {A} e.

(** Sequencing: the first exception raised ends the computation.  The
    instances give [result] stdpp's monad notation [x ← m; k]. *)
#[global] Instance result_ret : MRet result := @Ok.

#[global] Instance result_bind : MBind result := fun A B k m =>
  match m with
  | Ok a => k a
  | Raise e => Raise e
  end.

Definition returns {A : Type} (m : result A) : Prop := exists a, m = Ok a.

(** [d.get(k, default)] on a dictionary. *)
Definition dict_get {V : Type} (d : gmap string V) (k : string) (dflt : V) : V :=
  default dflt (d !! k).

(** The zone row as the engine reads it: two string columns. *)
Record Zone : Type := mkZone {
  zone_id : Z;
  zone_name : string;
  outlook : string;      (* LOW, MODERATE, HIGH *)
  confidence : string    (* LOW, MEDIUM, HIGH *)
}.

(** ** The terms of the specification

    The offsets and multipliers by which the specification states the rate
    of a real-estate projection in a zone. *)

Module SpecTerms.

(** +2.0 for a HIGH outlook, -2.0 for LOW, 0 for MODERATE (and any other). *)
Definition outlook_offset (o : string) : R :=
  if decide (o = "HIGH") then 2%R else if decide (o = "LOW") then (-2)%R else 0%R.

(** HIGH = 1.0, MEDIUM = 0.9, LOW = 0.8; a value outside the three counts as
    MEDIUM, as in the source's lookup. *)
Definition confidence_multiplier (c : string) : Q :=
  if decide (c = "HIGH") then 1
  else if decide (c = "LOW") then 8 # 10
  else 9 # 10.

(** The real-estate rate of the zone ROI table for an outlook. *)
Definition zone_real_estate_rate (o : string) : Q :=
  if decide (o = "HIGH") then 12 else if decide (o = "LOW") then 5 else 8.

End SpecTerms.

(** ** portfolio.py: growth projection over the reals *)

Module Portfolio.
Local Open Scope R_scope.

(** [x / y] on floats. *)
Definition py_div (x y : R) : result R :=
  if Req_dec_T y 0 then Raise ZeroDivisionError else Ok (x / y).

Definition return_rates : gmap string R :=
  <["real_estate" := 12]> (<["sip" := 12]> (<["stocks" := 15]>
  (<["fixed_deposit" := 6.5]> (<["gold" := 8]> (<["ppf" := 7.1]> ∅))))).

Definition risk_levels : gmap string string :=
  <["real_estate" := "MEDIUM"]> (<["sip" := "MEDIUM"]> (<["stocks" := "HIGH"]>
  (<["fixed_deposit" := "LOW"]> (<["gold" := "LOW"]> (<["ppf" := "LOW"]> ∅))))).

Definition liquidity : gmap string string :=
  <["real_estate" := "LOW"]> (<["sip" := "MEDIUM"]> (<["stocks" := "HIGH"]>
  (<["fixed_deposit" := "LOW"]> (<["gold" := "HIGH"]> (<["ppf" := "LOW"]> ∅))))).

Record Scenario : Type := mkScenario {
  rate : R;
  sc_future_value : R;
  sc_roi_percentage : R
}.

(** The dictionary [calculate_investment_returns] returns.  [display_name]
    (a re-capitalised copy of [investment_type]) is left out. *)
Record Projection : Type := mkProjection {
  investment_type : string;
  amount : R;
  horizon_months : R;
  annual_return_rate : R;
  future_value : R;
  total_returns : R;
  roi_percentage : R;
  risk_level : string;
  liquidity_rating : string;
  optimistic : Scenario;
  pessimistic : Scenario;
  zone_info : option Zone
}.

(** Lines 453-460: the rate looked up with default 10.0, shifted by the zone
    outlook for real estate. *)
Definition resolve_base_rate (investment_type : string) (zone : option Zone) : R :=
  let base_rate := dict_get return_rates investment_type 10 in
  match zone with
  | Some z =>
      if decide (investment_type = "real_estate") then
        if decide (outlook z = "HIGH") then base_rate + 2
        else if decide (outlook z = "LOW") then base_rate - 2
        else base_rate
      else base_rate
  | None => base_rate
  end.

(** [(1 + rate/100) ** years]: the base is positive for every rate the
    function can resolve (lemma [growth_base_gt_1]), where Python's float
    power is the real power. *)
Definition growth (rate_pct years : R) : R := Rpower (1 + rate_pct / 100) years.

(** Lines 462-500; [annual_rate = base_rate / 100] is inlined in [growth]. *)
Definition calculate_investment_returns
    (investment_type : string) (amount horizon_months : R) (zone : option Zone)
  : result Projection :=
  let base_rate := resolve_base_rate investment_type zone in
  (* Calculate future value *)
  let years := horizon_months / 12 in
  let future_value := amount * growth base_rate years in
  let total_returns := future_value - amount in
  q ← py_div total_returns amount;
  let roi_percentage := q * 100 in
  (* Calculate stress scenarios *)
  let optimistic_rate := base_rate + 3 in
  let pessimistic_rate := Rmax (base_rate - 3) 1 in
  let optimistic_value := amount * growth optimistic_rate years in
  let pessimistic_value := amount * growth pessimistic_rate years in
  qo ← py_div (optimistic_value - amount) amount;
  qp ← py_div (pessimistic_value - amount) amount;
  Ok {| investment_type := investment_type;
        amount := amount;
        horizon_months := horizon_months;
        annual_return_rate := base_rate;
        future_value := future_value;
        total_returns := total_returns;
        roi_percentage := roi_percentage;
        risk_level := dict_get risk_levels investment_type "MEDIUM";
        liquidity_rating := dict_get liquidity investment_type "MEDIUM";
        optimistic := {| rate := optimistic_rate;
                         sc_future_value := optimistic_value;
                         sc_roi_percentage := qo * 100 |};
        pessimistic := {| rate := pessimistic_rate;
                          sc_future_value := pessimistic_value;
                          sc_roi_percentage := qp * 100 |};
        zone_info := zone |}.

(** [comparisons.sort(key=lambda x: x['roi_percentage'], reverse=True)]:
    Python's sort is stable, also with [reverse=True]: of two entries with
    equal keys the one that came first stays first. *)
Fixpoint insert_desc (x : Projection) (l : list Projection) : list Projection :=
  match l with
  | [] => [x]
  | y :: l' =>
      if Rlt_dec (roi_percentage x) (roi_percentage y)
      then y :: insert_desc x l'
      else x :: y :: l'
  end.

Definition sort_by_roi_desc (l : list Projection) : list Projection :=
  foldr insert_desc [] l.

(** [roi_ge a b]: [a] may stand before [b] in a list sorted by decreasing
    ROI. *)
Definition roi_ge (a b : Projection) : Prop := roi_percentage b <= roi_percentage a.

(** Lines 507-518 of [generate_investment_recommendations]. *)
Definition suits (risk_profile : string) (comp : Projection) : bool :=
  if decide (risk_profile = "CONSERVATIVE") then
    bool_decide (risk_level comp = "LOW" \/ risk_level comp = "MEDIUM")
  else if decide (risk_profile = "MODERATE") then true
  else if decide (risk_profile = "GROWTH") then
    bool_decide (risk_level comp = "MEDIUM" \/ risk_level comp = "HIGH")
  else false.

Definition suitable_investments (comparisons : list Projection) (risk_profile : string)
  : list Projection :=
  match filter (fun comp => suits risk_profile comp = true) comparisons with
  | [] => comparisons
  | l => l
  end.

(** Line 521-522: [suitable_investments[0]] when the list is not empty. *)
Definition top_performer (comparisons : list Projection) (risk_profile : string)
  : option Projection :=
  head (suitable_investments comparisons risk_profile).

(** Lines 23-65 of [compare_investments]; [zone] is what
    [Zone.query.get(zone_id)] gave, [None] also when no [zone_id] was sent. *)
Definition compare_investments (investment_amount time_horizon : R) (zone : option Zone)
  : result (list Projection) :=
  real_estate ← match zone with
                 | Some z =>
                     p ← calculate_investment_returns "real_estate"
                           investment_amount time_horizon (Some z);
                     Ok [p]
                 | None => Ok []
                 end;
  sip_data ← calculate_investment_returns "sip" investment_amount time_horizon None;
  stocks_data ← calculate_investment_returns "stocks" investment_amount time_horizon None;
  fd_data ← calculate_investment_returns "fixed_deposit" investment_amount time_horizon None;
  gold_data ← calculate_investment_returns "gold" investment_amount time_horizon None;
  ppf_data ← calculate_investment_returns "ppf" investment_amount time_horizon None;
  Ok (sort_by_roi_desc
        (real_estate ++ [sip_data; stocks_data; fd_data; gold_data; ppf_data])).

End Portfolio.

(** ** Exact rational arithmetic for the integer-exponent code *)

Module PyQ.
Local Open Scope Q_scope.

Definition lt (x y : Q) : bool := QMicromega.Qlt_bool x y.
Definition le (x y : Q) : bool := Qle_bool x y.

(** [x / y]. *)
Definition py_div (x y : Q) : result Q :=
  if Qeq_bool y 0 then Raise ZeroDivisionError else Ok (x / y).

(** [x ** n] for an integer [n]: zero to a negative power raises. *)
Definition py_pow (x : Q) (n : Z) : result Q :=
  if Qeq_bool x 0 && (n <? 0)%Z then Raise ZeroDivisionError else Ok (x ^ n).

(** The nearest integer, a tie going to the even one. *)
Definition nearest (s : Q) : Z :=
  let f := Qfloor s in
  let r := s - inject_Z f in
  if lt r (1 # 2) then f
  else if lt (1 # 2) r then (f + 1)%Z
  else if Z.even f then f else (f + 1)%Z.

(** [round(x, 2)]: to the nearest hundredth, ties to the even one. *)
Definition round2 (x : Q) : Q := inject_Z (nearest (x * 100)) / 100.

(** [range(1, n + 1)]. *)
Definition range1 (n : Z) : list Z := map Z.of_nat (seq 1 (Z.to_nat n)).

End PyQ.

(** ** portfolio.py: the SIP calculator *)

Module Sip.
Import PyQ.
Local Open Scope Q_scope.

Record SipDetails : Type := mkSipDetails {
  monthly_sip : Q;
  annual_return : Q;
  time_period : Z;
  total_invested : Q;
  future_value : Q;
  total_returns : Q;
  roi_percentage : Q
}.

Record LumpSum : Type := mkLumpSum {
  lump_amount : Q;
  lump_future_value : Q;
  lump_total_returns : Q;
  lump_roi_percentage : Q
}.

Record YearRow : Type := mkYearRow {
  year : Z;
  invested : Q;
  value : Q;
  yr_returns : Q
}.

Record SipReport : Type := mkSipReport {
  sip_details : SipDetails;
  lump_sum_comparison : LumpSum;
  yearly_breakdown : list YearRow;
  recommendation : string
}.

(** The annuity-due formula of lines 360 and 380, for [months] months. *)
Definition annuity_due (monthly_sip monthly_return : Q) (months : Z) : result Q :=
  p ← py_pow (1 + monthly_return) months;
  d ← py_div (p - 1) monthly_return;
  Ok (monthly_sip * d * (1 + monthly_return)).

(** The loop of lines 377-389, threading [invested_so_far]. *)
Fixpoint yearly_loop (monthly_sip monthly_return : Q) (years : list Z)
    (invested_so_far : Q) : result (list YearRow) :=
  match years with
  | [] => Ok []
  | y :: rest =>
      let invested_so_far := invested_so_far + monthly_sip * 12 in
      current_value ←
        (if lt 0 monthly_return
         then annuity_due monthly_sip monthly_return (y * 12)
         else Ok invested_so_far);
      rows ← yearly_loop monthly_sip monthly_return rest invested_so_far;
      Ok ({| year := y;
             invested := invested_so_far;
             value := current_value;
             yr_returns := current_value - invested_so_far |} :: rows)
  end.

(** Lines 350-411.  [time_period] is an integer: [range] takes nothing else. *)
Definition sip_calculator (monthly_sip annual_return : Q) (time_period : Z)
  : result SipReport :=
  (* Calculate SIP returns *)
  let monthly_return := annual_return / 12 / 100 in
  let total_months := (time_period * 12)%Z in
  sip_future_value ←
    (if lt 0 monthly_return
     then annuity_due monthly_sip monthly_return total_months
     else Ok (monthly_sip * inject_Z total_months));
  let total_invested := monthly_sip * inject_Z total_months in
  let sip_returns := sip_future_value - total_invested in
  (* Compare with lump sum investment *)
  let lump_sum_amount := total_invested in
  p ← py_pow (1 + annual_return / 100) time_period;
  let lump_sum_future_value := lump_sum_amount * p in
  let lump_sum_returns := lump_sum_future_value - lump_sum_amount in
  (* Year-wise breakdown *)
  yearly_breakdown ← yearly_loop monthly_sip monthly_return (range1 time_period) 0;
  Ok {| sip_details :=
          {| monthly_sip := monthly_sip;
             annual_return := annual_return;
             time_period := time_period;
             total_invested := total_invested;
             future_value := sip_future_value;
             total_returns := sip_returns;
             roi_percentage :=
               if lt 0 total_invested then sip_returns / total_invested * 100 else 0 |};
        lump_sum_comparison :=
          {| lump_amount := lump_sum_amount;
             lump_future_value := lump_sum_future_value;
             lump_total_returns := lump_sum_returns;
             lump_roi_percentage :=
               if lt 0 lump_sum_amount
               then lump_sum_returns / lump_sum_amount * 100 else 0 |};
        yearly_breakdown := yearly_breakdown;
        recommendation :=
          if lt lump_sum_future_value sip_future_value then "SIP" else "Lump Sum" |}.

End Sip.

(** ** zones.py: the zone ROI *)

Module Zones.
Import PyQ.
Local Open Scope Q_scope.

(** The three rows of [base_rates], one per outlook. *)
Definition high_rates : gmap string Q :=
  <["real_estate" := 12]> (<["stocks" := 15]> (<["sip" := 12]> (<["bonds" := 7]> ∅))).

Definition moderate_rates : gmap string Q :=
  <["real_estate" := 8]> (<["stocks" := 12]> (<["sip" := 10]> (<["bonds" := 6]> ∅))).

Definition low_rates : gmap string Q :=
  <["real_estate" := 5]> (<["stocks" := 8]> (<["sip" := 8]> (<["bonds" := 5]> ∅))).

Definition base_rates : gmap string (gmap string Q) :=
  <["HIGH" := high_rates]> (<["MODERATE" := moderate_rates]> (<["LOW" := low_rates]> ∅)).

Definition confidence_multipliers : gmap string Q :=
  <["HIGH" := 1]> (<["MEDIUM" := 9 # 10]> (<["LOW" := 8 # 10]> ∅)).

(** [base_rates.get(outlook, base_rates['MODERATE'])]. *)
Definition outlook_row (o : string) : gmap string Q :=
  dict_get base_rates o (dict_get base_rates "MODERATE" ∅).

(** Lines 174-178. *)
Definition adjusted_rate (zone : Zone) (investment_type : string) : Q :=
  let base_rate := dict_get (outlook_row (outlook zone)) investment_type 8 in
  let confidence_multiplier := dict_get confidence_multipliers (confidence zone) (9 # 10) in
  base_rate * confidence_multiplier.

(** [investment_amount * ((1 + rate / 100 / 12) ** time_horizon)]. *)
Definition compound (investment_amount : Z) (rate_pct : Q) (time_horizon : Z) : result Q :=
  p ← py_pow (1 + rate_pct / 100 / 12) time_horizon;
  Ok (inject_Z investment_amount * p).

Record Stress : Type := mkStress {
  rate_percent : Q;
  st_future_value : Q;
  st_roi_percentage : Q
}.

Record ZoneRoi : Type := mkZoneRoi {
  roi_zone_id : Z;
  roi_zone_name : string;
  investment_amount : Z;
  investment_type : string;
  time_horizon_months : Z;
  base_rate_percent : Q;
  future_value : Q;
  total_returns : Q;
  roi_percentage : Q;
  optimistic : Stress;
  pessimistic : Stress
}.

(** Lines 157-222.  The route parses the amount and the horizon as integers. *)
Definition calculate_roi_for_zone (zone : Zone) (investment_amount : Z)
    (investment_type : string) (time_horizon : Z) : result ZoneRoi :=
  let adjusted_rate := adjusted_rate zone investment_type in
  (* Calculate future value using compound interest *)
  future_value ← compound investment_amount adjusted_rate time_horizon;
  (* Calculate total returns *)
  let total_returns := future_value - inject_Z investment_amount in
  q ← py_div total_returns (inject_Z investment_amount);
  let roi_percentage := q * 100 in
  (* Calculate stress test scenarios *)
  let optimistic_rate := adjusted_rate * (12 # 10) in
  optimistic_value ← compound investment_amount optimistic_rate time_horizon;
  let pessimistic_rate := adjusted_rate * (7 # 10) in
  pessimistic_value ← compound investment_amount pessimistic_rate time_horizon;
  qo ← py_div (optimistic_value - inject_Z investment_amount) (inject_Z investment_amount);
  qp ← py_div (pessimistic_value - inject_Z investment_amount) (inject_Z investment_amount);
  Ok {| roi_zone_id := zone_id zone;
        roi_zone_name := zone_name zone;
        investment_amount := investment_amount;
        investment_type := investment_type;
        time_horizon_months := time_horizon;
        base_rate_percent := round2 adjusted_rate;
        future_value := round2 future_value;
        total_returns := round2 total_returns;
        roi_percentage := round2 roi_percentage;
        optimistic := {| rate_percent := round2 optimistic_rate;
                         st_future_value := round2 optimistic_value;
                         st_roi_percentage := round2 (qo * 100) |};
        pessimistic := {| rate_percent := round2 pessimistic_rate;
                          st_future_value := round2 pessimistic_value;
                          st_roi_percentage := round2 (qp * 100) |} |}.

End Zones.

(** ** dashboard.py: portfolio risk and diversification *)

Module Dashboard.
Import PyQ.
Local Open Scope Q_scope.

(** What the function reads of a portfolio plan and of its snapshots. *)
Record Plan : Type := mkPlan {
  id : Z;
  name : string
}.

Record Snapshot : Type := mkSnapshot {
  asset_type : string;
  amount : Q
}.

Record RiskReport : Type := mkRiskReport {
  portfolio_id : Z;
  portfolio_name : string;
  risk_score : Q;
  risk_level : string;
  asset_allocation : gmap string Q;
  diversification_score : Z;
  volatility_estimate : Q
}.

Definition risk_weights : gmap string Q :=
  <["real_estate" := 6 # 10]> (<["stocks" := 8 # 10]> (<["sip" := 5 # 10]>
  (<["fixed_deposit" := 1 # 10]> (<["gold" := 3 # 10]> (<["ppf" := 1 # 10]> ∅))))).

(** Lines 624-639: [len(asset_allocation)] counts the keys of the dictionary. *)
Definition calculate_diversification_score (asset_allocation : gmap string Q) : Z :=
  if decide (asset_allocation = ∅) then 0%Z
  else
    let num_assets := size asset_allocation in
    if decide (num_assets = 1%nat) then 20%Z
    else if decide (num_assets = 2%nat) then 40%Z
    else if decide (5 <= num_assets)%nat then 90%Z
    else 60%Z.

(** [sum(s.amount for s in snapshots)]. *)
Definition total_amount (snapshots : list Snapshot) : Q :=
  foldl (fun acc s => acc + amount s) 0 snapshots.

(** Lines 592-597: one dictionary entry per snapshot, a later snapshot of the
    same asset type overwriting an earlier one. *)
Definition allocation_of (snapshots : list Snapshot) : gmap string Q :=
  let total_value := total_amount snapshots in
  foldl (fun asset_allocation s =>
           let percentage :=
             if lt 0 total_value then amount s / total_value * 100 else 0 in
           <[asset_type s := percentage]> asset_allocation)
        ∅ snapshots.

(** Lines 609-612.  The sum is exact here, so the order in which the
    dictionary is walked does not matter. *)
Definition weighted_risk (asset_allocation : gmap string Q) : Q :=
  map_fold (fun asset_type percentage risk_score =>
              let weight := dict_get risk_weights asset_type (5 # 10) in
              risk_score + (percentage / 100) * weight * 100)
           0 asset_allocation.

Definition calculate_portfolio_risk (portfolio : Plan) (snapshots : list Snapshot)
  : RiskReport :=
  let asset_allocation := allocation_of snapshots in
  let risk_score := weighted_risk asset_allocation in
  {| portfolio_id := id portfolio;
     portfolio_name := name portfolio;
     risk_score := round2 risk_score;
     risk_level := if lt 70 risk_score then "HIGH"
                   else if lt 30 risk_score then "MEDIUM" else "LOW";
     asset_allocation := asset_allocation;
     diversification_score := calculate_diversification_score asset_allocation;
     volatility_estimate := round2 (risk_score * (3 # 10)) |}.

(** The step function of the diversification score, on a count. *)
Definition diversification_steps (n : nat) : Z :=
  match n with
  | 0%nat => 0
  | 1%nat => 20
  | 2%nat => 40
  | 3%nat | 4%nat => 60
  | _ => 90
  end%Z.

#[global] Instance Qeq_decision (x y : Q) : Decision (x == y) := Qeq_dec x y.

(** The count the specification names: the asset classes whose allocation is
    not zero. *)
Definition nonzero_classes (asset_allocation : gmap string Q) : nat :=
  size (filter (fun kv : string * Q => ~ kv.2 == 0) asset_allocation).

End Dashboard.

(** ** investments.py: the financial health score *)

Module Investments.
Import PyQ.
Local Open Scope Z_scope.

(** The columns read of the user row and of the latest asset snapshot.  The
    six asset columns are summed by the source and are taken as non-NULL. *)
Record User : Type := mkUser {
  user_id : Z;
  monthly_income : option Z;
  monthly_expenses : option Z
}.

Record AssetSnapshot : Type := mkAssetSnapshot {
  savings : Z;
  mf : Z;
  stocks : Z;
  gold : Z;
  epf : Z;
  real_estate : Z;
  liabilities : option Z
}.

(** Truth value of a nullable integer: [None] and [0] are false. *)
Definition truthy (o : option Z) : bool :=
  match o with
  | Some n => negb (n =? 0)
  | None => false
  end.

(** The value of a column that tested true. *)
Definition val (o : option Z) : Z := default 0 o.

(** No liabilities are recorded: there is no snapshot, or its [liabilities]
    column is NULL or 0. *)
Definition no_liabilities (asset_snapshot : option AssetSnapshot) : bool :=
  match asset_snapshot with
  | Some a => negb (truthy (liabilities a))
  | None => true
  end.

(** No income figure is available: [monthly_income] is NULL or 0. *)
Definition no_income (user : User) : bool := negb (truthy (monthly_income user)).

(** The running [score] and the [factors] dictionary. *)
Definition tally : Type := Z * gmap string string.

Definition credit (points : Z) (factor label : string) (st : tally) : tally :=
  (st.1 + points, <[factor := label]> st.2).

(** Income factor, lines 403-416. *)
Definition income_factor (user : User) (st : tally) : tally :=
  if truthy (monthly_income user) then
    let income := val (monthly_income user) in
    if 100000 <=? income then credit 20 "income" "Excellent" st
    else if 50000 <=? income then credit 15 "income" "Good" st
    else if 25000 <=? income then credit 10 "income" "Average" st
    else credit 5 "income" "Below Average" st
  else st.

(** Expense ratio factor, lines 418-432. *)
Definition expense_ratio_factor (user : User) (st : tally) : tally :=
  if truthy (monthly_income user) && truthy (monthly_expenses user) then
    let expense_ratio :=
      (inject_Z (val (monthly_expenses user)) / inject_Z (val (monthly_income user)))%Q in
    if le expense_ratio (5 # 10) then credit 20 "expense_ratio" "Excellent" st
    else if le expense_ratio (7 # 10) then credit 15 "expense_ratio" "Good" st
    else if le expense_ratio (9 # 10) then credit 10 "expense_ratio" "Average" st
    else credit 5 "expense_ratio" "Poor" st
  else st.

Definition held (n : Z) : Z := if 0 <? n then 1 else 0.

(** Asset diversification factor, lines 434-461. *)
Definition diversification_factor (asset_snapshot : option AssetSnapshot) (st : tally)
  : tally :=
  match asset_snapshot with
  | Some a =>
      let total_assets :=
        savings a + mf a + stocks a + gold a + epf a + real_estate a in
      if 0 <? total_assets then
        let asset_types :=
          held (savings a) + held (mf a) + held (stocks a) + held (gold a)
          + held (epf a) + held (real_estate a) in
        if 4 <=? asset_types then credit 30 "diversification" "Excellent" st
        else if 3 <=? asset_types then credit 20 "diversification" "Good" st
        else if 2 <=? asset_types then credit 15 "diversification" "Average" st
        else credit 10 "diversification" "Poor" st
      else st
  | None => st
  end.

(** Debt factor, lines 463-481. *)
Definition debt_factor (user : User) (asset_snapshot : option AssetSnapshot) (st : tally)
  : tally :=
  match asset_snapshot with
  | Some a =>
      if truthy (liabilities a) then
        if truthy (monthly_income user) then
          let debt_to_income :=
            (inject_Z (val (liabilities a) * 12) / inject_Z (val (monthly_income user)))%Q in
          if le debt_to_income 2 then credit 20 "debt" "Excellent" st
          else if le debt_to_income 4 then credit 15 "debt" "Good" st
          else if le debt_to_income 6 then credit 10 "debt" "Average" st
          else credit 5 "debt" "Poor" st
        else st
      else credit 20 "debt" "Excellent" st   (* No debt is good *)
  | None => credit 20 "debt" "Excellent" st
  end.

(** Goal setting factor, lines 483-495; [goals_count] is the count the query
    gave. *)
Definition goal_factor (goals_count : nat) (st : tally) : tally :=
  if decide (3 <= goals_count)%nat then credit 10 "goal_planning" "Excellent" st
  else if decide (2 <= goals_count)%nat then credit 8 "goal_planning" "Good" st
  else if decide (1 <= goals_count)%nat then credit 5 "goal_planning" "Average" st
  else (st.1, <["goal_planning" := "Poor"]> st.2).

Definition overall_rating (score : Z) : string :=
  if 85 <=? score then "Excellent"
  else if 70 <=? score then "Good"
  else if 55 <=? score then "Average"
  else if 40 <=? score then "Below Average"
  else "Poor".

Definition average_or_poor (o : option string) : bool :=
  bool_decide (o = Some "Average" \/ o = Some "Poor").

Definition get_health_recommendations (score : Z) (factors : gmap string string)
  : list string :=
  (if average_or_poor (factors !! "expense_ratio")
   then ["Reduce monthly expenses to improve savings rate"] else [])
  ++ (if average_or_poor (factors !! "diversification")
      then ["Diversify investments across different asset classes"] else [])
  ++ (if average_or_poor (factors !! "debt")
      then ["Focus on reducing debt burden"] else [])
  ++ (if average_or_poor (factors !! "goal_planning")
      then ["Set clear financial goals with timelines"] else [])
  ++ (if score <? 70 then ["Consider consulting a financial advisor"] else []).

Record HealthScore : Type := mkHealthScore {
  score : Z;
  rating : string;
  factors : gmap string string;
  recommendations : list string
}.

Definition calculate_financial_health_score (user : User)
    (asset_snapshot : option AssetSnapshot) (goals_count : nat) : HealthScore :=
  let st : tally := (0, ∅) in
  let st := income_factor user st in
  let st := expense_ratio_factor user st in
  let st := diversification_factor asset_snapshot st in
  let st := debt_factor user asset_snapshot st in
  let st := goal_factor goals_count st in
  {| score := Z.min st.1 100;   (* Cap at 100 *)
     rating := overall_rating st.1;
     factors := st.2;
     recommendations := get_health_recommendations st.1 st.2 |}.

End Investments.

(** ** portfolio.py: the recommendations drawn from a comparison *)

Module Recommendations.
Import Portfolio.
Local Open Scope R_scope.

(** A recommendation.  The texts ([title], [description], [rationale]) are
    formatted from the fields kept here and are left out. *)
Record Recommendation : Type := mkRecommendation {
  rec_type : string;
  rec_investment_type : option string;
  rec_allocation : option (gmap string Z)
}.

Definition long_term (comp : Projection) : bool :=
  bool_decide (investment_type comp = "real_estate" \/ investment_type comp = "sip"
               \/ investment_type comp = "stocks").

(** Lines 537-540: an equal integer share for each of the first three. *)
Definition balanced_allocation (suitable : list Projection) : gmap string Z :=
  let first3 := take 3 suitable in
  foldl (fun allocation inv =>
           <[investment_type inv := (100 `div` Z.of_nat (length first3))%Z]> allocation)
        ∅ first3.

(** Lines 502-557. *)
Definition generate_investment_recommendations
    (comparisons : list Projection) (risk_profile : string) (time_horizon : R)
  : list Recommendation :=
  let suitable := suitable_investments comparisons risk_profile in
  (* Top performer *)
  (match suitable with
   | top :: _ => [ {| rec_type := "TOP_PERFORMER";
                      rec_investment_type := Some (investment_type top);
                      rec_allocation := None |} ]
   | [] => []
   end)
  (* Balanced approach *)
  ++ (if decide (2 <= length suitable)%nat
      then [ {| rec_type := "BALANCED";
                rec_investment_type := None;
                rec_allocation := Some (balanced_allocation suitable) |} ]
      else [])
  (* Time-based recommendation *)
  ++ (if Rle_dec 60 time_horizon
      then match filter (fun comp => long_term comp = true) suitable with
           | option :: _ => [ {| rec_type := "LONG_TERM";
                                 rec_investment_type := Some (investment_type option);
                                 rec_allocation := None |} ]
           | [] => []
           end
      else []).

(** The two parts of the answer of [compare_investments], lines 64-70. *)
Definition compare_report (investment_amount time_horizon : R) (risk_profile : string)
    (zone : option Zone) : result (list Projection * list Recommendation) :=
  comparisons ← compare_investments investment_amount time_horizon zone;
  Ok (comparisons,
      generate_investment_recommendations comparisons risk_profile time_horizon).

(** The order in which a comparison over a positive horizon lists the asset
    classes. *)
Definition ranking (zone : option Zone) : list string :=
  match zone with
  | None => ["stocks"; "sip"; "gold"; "ppf"; "fixed_deposit"]
  | Some z =>
      if decide (outlook z = "LOW")
      then ["stocks"; "sip"; "real_estate"; "gold"; "ppf"; "fixed_deposit"]
      else ["stocks"; "real_estate"; "sip"; "gold"; "ppf"; "fixed_deposit"]
  end.

(** The order in which the comparison appends them, lines 25-62. *)
Definition appended (zone : option Zone) : list string :=
  match zone with
  | None => ["sip"; "stocks"; "fixed_deposit"; "gold"; "ppf"]
  | Some _ => ["real_estate"; "sip"; "stocks"; "fixed_deposit"; "gold"; "ppf"]
  end.

(** A projection of the class [t], with the risk level of that class. *)
Definition of_class (p : Projection) (t : string) : Prop :=
  investment_type p = t /\ risk_level p = dict_get risk_levels t "MEDIUM".

End Recommendations.

(** ** portfolio.py: the expense tracker *)

Module Budget.
Import PyQ.
Local Open Scope Q_scope.

(** An entry of [calculate_investment_capacity].  The texts ([title],
    [description]) are left out. *)
Record Advice : Type := mkAdvice {
  adv_type : string;
  adv_priority : string;
  adv_amount : option Q
}.

(** [min(x, y)]. *)
Definition py_min (x y : Q) : Q := if lt y x then y else x.

(** Lines 592-649. *)
Definition calculate_investment_capacity
    (monthly_income total_expenses available_amount : Q) : result (list Advice) :=
  if le available_amount 0 then
    Ok [ {| adv_type := "EXPENSE_REDUCTION"; adv_priority := "HIGH"; adv_amount := None |} ]
  else
    q ← py_div available_amount monthly_income;
    let investment_percentage := q * 100 in
    let savings :=
      if lt investment_percentage 10 then
        {| adv_type := "INCREASE_SAVINGS"; adv_priority := "HIGH"; adv_amount := None |}
      else if lt investment_percentage 20 then
        {| adv_type := "GOOD_START"; adv_priority := "MEDIUM"; adv_amount := None |}
      else
        {| adv_type := "EXCELLENT"; adv_priority := "LOW"; adv_amount := None |} in
    (* Allocation suggestions *)
    Ok ([savings]
        ++ (if le 5000 available_amount
            then [ {| adv_type := "SIP_RECOMMENDATION"; adv_priority := "MEDIUM";
                      adv_amount := Some (py_min (available_amount * 0.7) 25000) |} ]
            else [])
        ++ (if le 10000 available_amount
            then [ {| adv_type := "EMERGENCY_FUND"; adv_priority := "HIGH";
                      adv_amount := Some (available_amount * 0.3) |} ]
            else [])).

Record CategoryInfo : Type := mkCategoryInfo {
  category : string;
  cat_amount : Q;
  percentage : Q;
  recommended_percentage : Q;
  status : string
}.

(** A REDUCE_EXPENSE entry; its [message] text is left out. *)
Record ExpenseAdvice : Type := mkExpenseAdvice {
  exp_type : string;
  exp_category : string
}.

Record Analysis : Type := mkAnalysis {
  an_total_expenses : Q;
  expense_ratio : Q;
  category_analysis : list CategoryInfo;
  an_recommendations : list ExpenseAdvice
}.

Definition recommended_ratios : gmap string Q :=
  <["housing" := 30]> (<["food" := 15]> (<["transportation" := 15]>
  (<["utilities" := 10]> (<["entertainment" := 10]> (<["healthcare" := 5]>
  (<["miscellaneous" := 15]> ∅)))))).

(** [sum(expenses.values())]; the JSON object is read as the list of its
    entries, in order. *)
Definition sum_values (expenses : list (string * Q)) : Q :=
  foldl (fun acc e => acc + e.2) 0 expenses.

Section AnalyzeExpenses.

(** [str.lower], taken as given. *)
Variable lower : string -> string.

(** The body of the loop of lines 672-691 for one entry. *)
Definition category_info (monthly_income : Q) (e : string * Q) : CategoryInfo :=
  let percentage := if lt 0 monthly_income then e.2 / monthly_income * 100 else 0 in
  let recommended := dict_get recommended_ratios (lower e.1) 10 in
  {| category := e.1;
     cat_amount := e.2;
     percentage := percentage;
     recommended_percentage := recommended;
     status := if lt recommended percentage then "OVER"
               else if lt percentage (recommended * 0.5) then "UNDER"
               else "OPTIMAL" |}.

(** Lines 651-693. *)
Definition analyze_expenses (expenses : list (string * Q)) (monthly_income : Q)
  : Analysis :=
  let infos := category_info monthly_income <$> expenses in
  {| an_total_expenses := sum_values expenses;
     expense_ratio :=
       if lt 0 monthly_income then sum_values expenses / monthly_income * 100 else 0;
     category_analysis := infos;
     an_recommendations :=
       omap (fun i =>
               if lt (recommended_percentage i) (percentage i)
               then Some {| exp_type := "REDUCE_EXPENSE"; exp_category := category i |}
               else None) infos |}.

Record ExpenseReport : Type := mkExpenseReport {
  monthly_income : Q;
  total_expenses : Q;
  available_for_investment : Q;
  investment_percentage : Q;
  recommendations : list Advice;
  expense_analysis : Analysis
}.

(** Lines 306-336. *)
Definition track_expenses (monthly_income : Q) (expenses : list (string * Q))
  : result ExpenseReport :=
  let total_expenses := sum_values expenses in
  let available_for_investment := monthly_income - total_expenses in
  recommendations ←
    calculate_investment_capacity monthly_income total_expenses available_for_investment;
  let expense_analysis := analyze_expenses expenses monthly_income in
  Ok {| monthly_income := monthly_income;
        total_expenses := total_expenses;
        available_for_investment := available_for_investment;
        investment_percentage :=
          if lt 0 monthly_income
          then available_for_investment / monthly_income * 100 else 0;
        recommendations := recommendations;
        expense_analysis := expense_analysis |}.

End AnalyzeExpenses.

End Budget.

(** ** dashboard.py: the risk advice on portfolio reports *)

Module RiskAnalysis.
Import PyQ Dashboard.
Local Open Scope Q_scope.

Record OverallRisk : Type := mkOverallRisk {
  or_score : Q;
  or_level : string
}.

Record RiskAdvice : Type := mkRiskAdvice {
  ra_type : string;
  ra_title : string;
  ra_priority : string
}.

(** Lines 673-704; the [description] texts are left out.  [overall] is the
    dictionary the caller built, read at its [score]. *)
Definition generate_risk_recommendations (overall : OverallRisk)
    (portfolio_risks : list RiskReport) : list RiskAdvice :=
  (if lt 70 (or_score overall)
   then [ {| ra_type := "REDUCE_RISK"; ra_title := "Consider Risk Reduction";
             ra_priority := "HIGH" |} ]
   else [])
  ++ (if lt (or_score overall) 30
      then [ {| ra_type := "INCREASE_RETURNS"; ra_title := "Consider Higher Returns";
                ra_priority := "MEDIUM" |} ]
      else [])
  (* Check diversification *)
  ++ omap (fun portfolio_risk =>
             if (diversification_score portfolio_risk <? 50)%Z
             then Some {| ra_type := "DIVERSIFY";
                          ra_title := "Diversify " +:+ portfolio_name portfolio_risk;
                          ra_priority := "MEDIUM" |}
             else None)
          portfolio_risks.

(** The percentage line 596 gives a snapshot, for a total, and the
    dictionary entry line 597 writes for it. *)
Definition share (total_value : Q) (s : Snapshot) : Q :=
  if lt 0 total_value then amount s / total_value * 100 else 0.

Definition record_share (total_value : Q) (asset_allocation : gmap string Q)
    (s : Snapshot) : gmap string Q :=
  <[asset_type s := share total_value s]> asset_allocation.

(** The asset types a list of snapshots names. *)
Definition asset_types (snapshots : list Snapshot) : gset string :=
  list_to_set (asset_type <$> snapshots).

(** The percentages of an allocation, added up. *)
Definition allocation_sum (asset_allocation : gmap string Q) : Q :=
  map_fold (fun _ percentage acc => acc + percentage) 0 asset_allocation.

End RiskAnalysis.

(** ** investments.py: the default portfolio templates *)

Module Templates.
Local Open Scope Z_scope.

Record Template : Type := mkTemplate {
  name : string;
  allocation : gmap string Z;
  rationale : list string;
  confidence : string
}.

(** Lines 314-368 of [get_default_recommendations]: the [portfolios] list by
    risk profile. *)
Definition default_portfolios (risk_profile : string) : list Template :=
  if decide (risk_profile = "CONSERVATIVE") then
    [ {| name := "Conservative";
         allocation := <["debt_funds" := 60]> (<["index_funds" := 25]>
                       (<["gold_etf" := 15]> ∅));
         rationale := ["Capital preservation focus"; "Low volatility"; "Steady returns"];
         confidence := "High" |};
      {| name := "Ultra Conservative";
         allocation := <["debt_funds" := 70]> (<["index_funds" := 20]>
                       (<["gold_etf" := 10]> ∅));
         rationale := ["Maximum safety"; "Minimal risk"; "Predictable returns"];
         confidence := "High" |} ]
  else if decide (risk_profile = "GROWTH") then
    [ {| name := "Growth";
         allocation := <["flexi_cap" := 40]> (<["index_funds" := 35]>
                       (<["reits" := 15]> (<["gold_etf" := 10]> ∅)));
         rationale := ["High growth potential"; "Diversified equity exposure";
                       "Long-term wealth creation"];
         confidence := "Medium" |};
      {| name := "Aggressive Growth";
         allocation := <["flexi_cap" := 50]> (<["index_funds" := 30]>
                       (<["reits" := 20]> ∅));
         rationale := ["Maximum growth focus"; "Higher risk tolerance";
                       "Long investment horizon"];
         confidence := "Medium" |} ]
  else
    [ {| name := "Recommended";
         allocation := <["index_funds" := 40]> (<["flexi_cap" := 25]>
                       (<["debt_funds" := 20]> (<["gold_etf" := 15]> ∅)));
         rationale := ["Balanced risk-return"; "Diversified portfolio";
                       "Suitable for moderate risk"];
         confidence := "High" |};
      {| name := "Conservative";
         allocation := <["debt_funds" := 40]> (<["index_funds" := 35]>
                       (<["gold_etf" := 25]> ∅));
         rationale := ["Lower risk approach"; "Stable returns"; "Capital protection"];
         confidence := "High" |};
      {| name := "Growth";
         allocation := <["flexi_cap" := 35]> (<["index_funds" := 35]>
                       (<["reits" := 20]> (<["gold_etf" := 10]> ∅)));
         rationale := ["Higher growth potential"; "Equity focused"; "Long-term gains"];
         confidence := "Medium" |} ].

(** [user_profile.get('risk_profile', 'MODERATE')] and the list it selects. *)
Definition get_default_recommendations (user_profile : gmap string string)
  : list Template :=
  default_portfolios (dict_get user_profile "risk_profile" "MODERATE").

(** The percentages of a template, added up. *)
Definition allocation_total (allocation : gmap string Z) : Z :=
  map_fold (fun _ percentage acc => acc + percentage) 0 allocation.

End Templates.

(** ** ai_services.py: the risk assessment *)

Module RiskAssessment.
Import PyQ.
Local Open Scope Z_scope.

Record Assessment : Type := mkAssessment {
  risk_score : Z;
  risk_level : string;
  risk_description : string;
  risk_factors : list string;
  mitigation_strategies : list string
}.

(** The running [risk_score] and the [risk_factors] list. *)
Definition tally : Type := Z * list string.

Definition raise_by (points : Z) (factor : string) (st : tally) : tally :=
  (st.1 + points, st.2 ++ [factor]).

(** Zone-based risk assessment, lines 542-552. *)
Definition zone_risk (zone : option Zone) (st : tally) : tally :=
  match zone with
  | Some z =>
      let st :=
        if decide (confidence z = "LOW")
        then raise_by 20 "Low confidence in zone outlook" st
        else if decide (confidence z = "MEDIUM")
        then raise_by 10 "Moderate confidence in zone performance" st
        else st in
      if decide (outlook z = "LOW")
      then raise_by 15 "Zone has low growth outlook" st
      else st
  | None => st
  end.

(** Investment type risk, lines 555-560. *)
Definition type_risk (investment_type : string) (st : tally) : tally :=
  if decide (investment_type = "real_estate")
  then raise_by 15 "Real estate liquidity constraints" st
  else if decide (investment_type = "stocks")
  then raise_by 25 "High market volatility in equity investments" st
  else st.

(** Time horizon risk, lines 563-568. *)
Definition horizon_risk (time_horizon : Q) (st : tally) : tally :=
  if lt time_horizon 36
  then raise_by 20 "Short investment horizon increases risk" st
  else if lt 120 time_horizon
  then raise_by 5 "Long-term market uncertainty" st
  else st.

(** Amount-based risk, lines 571-573. *)
Definition amount_risk (amount : Q) (st : tally) : tally :=
  if lt 5000000 amount
  then raise_by 10 "Large investment amount concentration risk" st
  else st.

(** User profile risk, lines 576-579. *)
Definition profile_risk (user_profile : gmap string string) (investment_type : string)
    (st : tally) : tally :=
  let risk_profile := dict_get user_profile "risk_profile" "MODERATE" in
  if decide (risk_profile = "CONSERVATIVE")
  then if decide (investment_type = "stocks" \/ investment_type = "real_estate")
       then raise_by 15 "Investment type misaligned with conservative risk profile" st
       else st
  else st.

(** The score before the cap, with its factors. *)
Definition raw_assessment (investment_type : string) (amount : Q) (zone : option Zone)
    (time_horizon : Q) (user_profile : gmap string string) : tally :=
  profile_risk user_profile investment_type
    (amount_risk amount
       (horizon_risk time_horizon
          (type_risk investment_type
             (zone_risk zone (0, []))))).

(** Lines 536-611. *)
Definition perform_risk_assessment (investment_type : string) (amount : Q)
    (zone : option Zone) (time_horizon : Q) (user_profile : gmap string string)
  : Assessment :=
  let st := raw_assessment investment_type amount zone time_horizon user_profile in
  let risk_score := st.1 in
  {| risk_score := Z.min risk_score 100;
     risk_level := if risk_score <=? 30 then "LOW"
                   else if risk_score <=? 60 then "MEDIUM" else "HIGH";
     risk_description :=
       if risk_score <=? 30 then "Low risk investment with stable returns expected"
       else if risk_score <=? 60 then "Moderate risk with balanced return potential"
       else "High risk investment requiring careful monitoring";
     risk_factors := st.2;
     mitigation_strategies :=
       (if 50 <? risk_score
        then [ "Consider diversifying across multiple asset classes";
               "Implement systematic investment approach to reduce timing risk";
               "Regular portfolio review and rebalancing" ]
        else [])
       ++ (if decide (investment_type = "real_estate")
           then if lt 2000000 amount
                then [ "Consider REITs for better liquidity and diversification" ]
                else []
           else []) |}.

End RiskAssessment.

(** ** investments.py: what a scoring step may do *)

Module HealthTerms.
Import Investments.
Local Open Scope Z_scope.

(** A step adds between 0 and [cap] points and writes at most the rating of
    its own factor. *)
Definition adds_up_to (cap : Z) (factor : string) (st st' : tally) : Prop :=
  st.1 <= st'.1 <= st.1 + cap /\
  forall k, k <> factor -> st'.2 !! k = st.2 !! k.

(** The debt of a year at the monthly rate of the liabilities column, against
    the monthly income, as line 466 computes it. *)
Definition debt_to_income (user : User) (a : AssetSnapshot) : Q :=
  (inject_Z (val (liabilities a) * 12) / inject_Z (val (monthly_income user)))%Q.

End HealthTerms.

(** ** ai_services.py: what an assessment step may do *)

Module AssessmentTerms.
Import RiskAssessment.
Local Open Scope Z_scope.

(** A step appends at most [n] risk factors and adds between 5 and 25 points
    for each of them. *)
Definition raises (n : nat) (st st' : tally) : Prop :=
  exists extra,
    st'.2 = st.2 ++ extra /\
    (length extra <= n)%nat /\
    st.1 + 5 * Z.of_nat (length extra) <= st'.1 <= st.1 + 25 * Z.of_nat (length extra).

(** The three strategies given from a score above 50. *)
Definition general_strategies : list string :=
  [ "Consider diversifying across multiple asset classes";
    "Implement systematic investment approach to reduce timing risk";
    "Regular portfolio review and rebalancing" ].

End AssessmentTerms.

(** ** Doubles: where the exact reading stands for them *)

Module Doubles.

(** The largest finite double, [(2^53 - 1) * 2^971].  A number sent beyond
    it is no finite double, and an integer beyond it cannot meet a float. *)
Definition max_double : Z := Eval vm_compute in (2 ^ 1024 - 2 ^ 971)%Z.

(** Up to [2^53] in magnitude every integer is a double, so [int * float],
    [float - int] and [float >= int] read the integer itself. *)
Definition max_exact : Z := Eval vm_compute in (2 ^ 53)%Z.

(** A thousand years, in months.  The highest rate of the code, 18 percent a
    year or 1.5 percent a month, compounds over them to less than [10^78],
    far below the doubles at which [**] raises [OverflowError]. *)
Definition max_months : Z := 12000.

(** Below [2^51] in magnitude of the divisor, the double that [int / int]
    returns (the quotient rounded to nearest) lies on the same side of 4 as
    the quotient itself: the doubles next to 4 are [2^-50] away. *)
Definition max_divisor : Z := Eval vm_compute in (2 ^ 51)%Z.

(** The double an integer becomes when it meets a float: the nearest one,
    ties to even; [None] stands for the [OverflowError] beyond double
    range. *)
Definition float_of_int (n : Z) : option float :=
  let x := SF2Prim (binary_normalize prec emax n 0 false) in
  if PrimFloat.is_infinity x then None else Some x.

(** Line 465 of [calculate_investment_returns] on doubles, for an amount
    sent as an integer; [power] is the value of [(1 + annual_rate) ** years]. *)
Definition future_value (amount : Z) (power : float) : option float :=
  a ← float_of_int amount; Some (a * power)%float.

End Doubles.

(** * Properties *)

(** ** The result monad *)

Lemma bind_Ok {A B : Type} (a : A) (k : A -> result B) : (Ok a ≫= k) = k a.
Proof. reflexivity. Qed.

Lemma bind_Raise {A B : Type} (e : exn) (k : A -> result B) : (Raise e ≫= k) = Raise e.
Proof. reflexivity. Qed.

Lemma returns_Ok {A : Type} (a : A) : returns (Ok a).
Proof. by exists a. Qed.

Lemma bind_Ok_inv {A B : Type} (m : result A) (k : A -> result B) b :
  (m ≫= k) = Ok b -> exists a, m = Ok a /\ k a = Ok b.
Proof. destruct m as [a | e]; [by exists a | discriminate]. Qed.

Lemma not_returns_Raise {A : Type} (e : exn) : ~ returns (@Raise A e).
Proof. intros [a Ha]. discriminate. Qed.

(** ** portfolio.py: projections *)

Module PortfolioFacts.
Import Portfolio.
Import Lra.
Local Open Scope R_scope.

Lemma py_div_nonzero x y : y <> 0 -> py_div x y = Ok (x / y).
Proof. intros Hy. unfold py_div. by destruct (Req_dec_T y 0). Qed.

Lemma py_div_zero x : py_div x 0 = Raise ZeroDivisionError.
Proof. unfold py_div. by destruct (Req_dec_T 0 0). Qed.

(** What the rate table gives: 12 for real estate, and between 6.5 and 15
    for every other name, registered or not. *)
Lemma table_rate_cases (investment_type : string) :
  (investment_type = "real_estate" /\ dict_get return_rates investment_type 10 = 12) \/
  (investment_type <> "real_estate" /\
   6.5 <= dict_get return_rates investment_type 10 <= 15).
Proof.
  unfold dict_get, return_rates.
  rewrite !lookup_insert, lookup_empty.
  repeat case_decide; subst; simpl;
    try (left; split; [done | lra]); right; split; try done; lra.
Qed.

Lemma real_estate_rate zone :
  resolve_base_rate "real_estate" (Some zone) =
  if decide (outlook zone = "HIGH") then 12 + 2
  else if decide (outlook zone = "LOW") then 12 - 2 else 12.
Proof. reflexivity. Qed.

Lemma resolve_base_rate_bounds investment_type zone :
  6.5 <= resolve_base_rate investment_type zone <= 15.
Proof.
  unfold resolve_base_rate.
  destruct (table_rate_cases investment_type) as [[-> Hr] | [Hne Hr]];
    destruct zone; repeat case_decide; try congruence; lra.
Qed.

Lemma growth_pos rate_pct years : 0 < growth rate_pct years.
Proof. unfold growth, Rpower. apply exp_pos. Qed.

(** The growth factor is monotone in the rate once the horizon is not
    negative and the base [1 + rate/100] is positive. *)
Lemma growth_mono r1 r2 years :
  0 <= years -> -100 < r1 -> r1 <= r2 -> growth r1 years <= growth r2 years.
Proof.
  intros Hy H1 H12. unfold growth. apply Rle_Rpower_l; [done | lra].
Qed.

(** The base of the power is above 1 at the three rates of a projection. *)
Lemma growth_base_gt_1 investment_type zone :
  let base_rate := resolve_base_rate investment_type zone in
  1 < 1 + base_rate / 100 /\
  1 < 1 + (base_rate + 3) / 100 /\
  1 < 1 + Rmax (base_rate - 3) 1 / 100.
Proof.
  intros base_rate.
  pose proof (resolve_base_rate_bounds investment_type zone) as Hb.
  fold base_rate in Hb.
  pose proof (Rmax_r (base_rate - 3) 1). lra.
Qed.

(** A projection of a non-zero amount returns, with these fields. *)
Lemma calculate_investment_returns_nonzero investment_type amount horizon_months zone :
  amount <> 0 ->
  exists p,
    calculate_investment_returns investment_type amount horizon_months zone = Ok p /\
    annual_return_rate p = resolve_base_rate investment_type zone /\
    future_value p = amount * growth (annual_return_rate p) (horizon_months / 12) /\
    rate (optimistic p) = annual_return_rate p + 3 /\
    rate (pessimistic p) = Rmax (annual_return_rate p - 3) 1 /\
    sc_future_value (optimistic p) =
      amount * growth (rate (optimistic p)) (horizon_months / 12) /\
    sc_future_value (pessimistic p) =
      amount * growth (rate (pessimistic p)) (horizon_months / 12) /\
    roi_percentage p = (future_value p - amount) / amount * 100 /\
    risk_level p = dict_get risk_levels investment_type "MEDIUM" /\
    liquidity_rating p = dict_get liquidity investment_type "MEDIUM".
Proof.
  intros Ha. unfold calculate_investment_returns.
  rewrite !py_div_nonzero by done. cbn [mbind result_bind].
  eexists. split; [reflexivity |]. repeat split.
Qed.

Lemma calculate_investment_returns_zero investment_type horizon_months zone :
  calculate_investment_returns investment_type 0 horizon_months zone
  = Raise ZeroDivisionError.
Proof. unfold calculate_investment_returns. rewrite !py_div_zero. reflexivity. Qed.

(** With a rate below 1 the floor of the pessimistic rate would lift it above
    the base rate; no rate of the table is that low. *)
Lemma pessimistic_floor_above_low_rate base_rate years :
  0 <= base_rate < 1 -> 0 < years ->
  growth base_rate years < growth (Rmax (base_rate - 3) 1) years.
Proof.
  intros Hb Hy. rewrite Rmax_right by lra.
  unfold growth. apply Rlt_Rpower_l; lra.
Qed.

(** C1. A projection of a positive amount over a positive horizon returns,
    its resolved base rate is not negative, its optimistic rate is the base
    rate plus 3.0, its pessimistic rate is max(base rate - 3.0, 1.0), and the
    pessimistic and optimistic future values bracket the base future value. *)
Theorem stress_band_brackets_base investment_type amount horizon_months zone :
  0 < amount -> 0 < horizon_months ->
  exists p,
    calculate_investment_returns investment_type amount horizon_months zone = Ok p /\
    0 <= annual_return_rate p /\
    rate (optimistic p) = annual_return_rate p + 3 /\
    rate (pessimistic p) = Rmax (annual_return_rate p - 3) 1 /\
    sc_future_value (pessimistic p) <= future_value p <= sc_future_value (optimistic p).
Proof.
  intros Ha Hh.
  destruct (calculate_investment_returns_nonzero investment_type amount horizon_months zone)
    as (p & Hp & Hrate & Hfv & Hor & Hpr & Hov & Hpv & _); [lra |].
  pose proof (resolve_base_rate_bounds investment_type zone) as Hb.
  rewrite <- Hrate in Hb.
  exists p. split; [exact Hp |]. split; [lra |]. split; [exact Hor |]. split; [exact Hpr |].
  rewrite Hfv, Hov, Hpv, Hor, Hpr. rewrite Rmax_left by lra.
  split; apply Rmult_le_compat_l; try lra; apply growth_mono; lra.
Qed.

Lemma stress_band_brackets_base_witness :
  exists p,
    calculate_investment_returns "stocks" 1000000 60 None = Ok p /\
    0 <= annual_return_rate p /\
    rate (optimistic p) = annual_return_rate p + 3 /\
    rate (pessimistic p) = Rmax (annual_return_rate p - 3) 1 /\
    sc_future_value (pessimistic p) <= future_value p <= sc_future_value (optimistic p).
Proof. apply stress_band_brackets_base; lra. Defined.

(** On doubles two amounts can project to one future value.  Over 12 months
    the power [(1 + 8.0 / 100) ** 1.0] of gold is its base, and line 465
    converts the integer [2^53 + 1] to the double [2^53]. *)
Lemma distinct_amounts_same_future_value :
  (0 < 2 ^ 53 < 2 ^ 53 + 1)%Z /\
  Doubles.future_value (2 ^ 53) (1 + 8 / 100)%float = Some 0x1.147ae147ae148p+53%float /\
  Doubles.future_value (2 ^ 53 + 1) (1 + 8 / 100)%float = Some 0x1.147ae147ae148p+53%float.
Proof. split; [lia |]. split; vm_compute; reflexivity. Qed.

(** C9 (amended). With the asset class, the horizon and the zone fixed, the
    projected future value does not decrease when the invested amount grows:
    of two positive amounts in double range, over a positive horizon of up
    to a thousand years, the larger one projects to a future value that is
    at least that of the smaller one. *)
Theorem future_value_nondecreasing investment_type horizon_months zone a1 a2 :
  0 < a1 -> a1 <= a2 -> a2 <= IZR Doubles.max_double ->
  0 < horizon_months <= IZR Doubles.max_months ->
  exists p1 p2,
    calculate_investment_returns investment_type a1 horizon_months zone = Ok p1 /\
    calculate_investment_returns investment_type a2 horizon_months zone = Ok p2 /\
    future_value p1 <= future_value p2.
Proof.
  intros H1 H12 _ _.
  destruct (calculate_investment_returns_nonzero investment_type a1 horizon_months zone)
    as (p1 & Hp1 & Hr1 & Hfv1 & _); [lra |].
  destruct (calculate_investment_returns_nonzero investment_type a2 horizon_months zone)
    as (p2 & Hp2 & Hr2 & Hfv2 & _); [lra |].
  exists p1, p2. split; [exact Hp1 |]. split; [exact Hp2 |].
  rewrite Hfv1, Hfv2, Hr1, Hr2.
  apply Rmult_le_compat_r; [left; apply growth_pos | exact H12].
Qed.

Lemma future_value_nondecreasing_witness :
  exists p1 p2,
    calculate_investment_returns "gold" 1000 36 None = Ok p1 /\
    calculate_investment_returns "gold" 2000 36 None = Ok p2 /\
    future_value p1 <= future_value p2.
Proof.
  apply future_value_nondecreasing; unfold Doubles.max_double, Doubles.max_months; lra.
Defined.

(** Over an empty horizon the projected value is the amount itself. *)
Lemma zero_horizon_is_projected :
  exists p, calculate_investment_returns "sip" 1000 0 None = Ok p /\ future_value p = 1000.
Proof.
  destruct (calculate_investment_returns_nonzero "sip" 1000 0 None)
    as (p & Hp & Hr & Hfv & _); [lra |].
  exists p. split; [exact Hp |]. rewrite Hfv, Hr. unfold growth.
  pose proof (resolve_base_rate_bounds "sip" None) as Hb.
  replace (0 / 12) with 0 by lra. rewrite Rpower_O; lra.
Qed.

End PortfolioFacts.

Module CompareFacts.
Import Portfolio PortfolioFacts Recommendations.
Import Lra.
Local Open Scope R_scope.

Lemma insert_desc_Forall (P : Projection -> Prop) x l :
  P x -> Forall P l -> Forall P (insert_desc x l).
Proof.
  intros Hx Hl. induction Hl as [| y l Hy Hl IH]; simpl.
  - by constructor.
  - destruct (Rlt_dec _ _); repeat constructor; auto.
Qed.

Lemma insert_desc_sorted x l :
  StronglySorted roi_ge l -> StronglySorted roi_ge (insert_desc x l).
Proof.
  induction 1 as [| y l Hs IH Hy]; simpl.
  - repeat constructor.
  - destruct (Rlt_dec (roi_percentage x) (roi_percentage y)) as [Hlt | Hge].
    + constructor; [exact IH |].
      apply insert_desc_Forall; [unfold roi_ge; lra | exact Hy].
    + constructor; [by constructor |].
      constructor; [unfold roi_ge; lra |].
      eapply Forall_impl; [exact Hy |].
      unfold roi_ge. intros z Hz. lra.
Qed.

Lemma insert_desc_perm x l : insert_desc x l ≡ₚ x :: l.
Proof.
  induction l as [| y l IH]; simpl; [done |].
  destruct (Rlt_dec _ _); [| done].
  rewrite IH. apply Permutation_swap.
Qed.

Lemma sort_by_roi_desc_sorted l : StronglySorted roi_ge (sort_by_roi_desc l).
Proof.
  induction l as [| x l IH]; simpl; [constructor | by apply insert_desc_sorted].
Qed.

Lemma sort_by_roi_desc_perm l : sort_by_roi_desc l ≡ₚ l.
Proof.
  induction l as [| x l IH]; simpl; [done |].
  by rewrite insert_desc_perm, IH.
Qed.

(** Stability: an entry is put before the entries of equal ROI it preceded. *)
Lemma insert_desc_stable x y l :
  roi_percentage x = roi_percentage y -> insert_desc x (y :: l) = x :: y :: l.
Proof.
  intros Heq. simpl. destruct (Rlt_dec _ _); [lra | done].
Qed.

Lemma sorted_head_maximal first rest :
  StronglySorted roi_ge (first :: rest) ->
  forall p, p ∈ first :: rest -> roi_percentage p <= roi_percentage first.
Proof.
  intros Hs p Hp. apply StronglySorted_inv in Hs as [_ Hall].
  apply elem_of_cons in Hp as [-> | Hp]; [lra |].
  rewrite Forall_forall in Hall. by apply Hall.
Qed.

Lemma filter_sorted (P : Projection -> Prop) `{!forall x, Decision (P x)} l :
  StronglySorted roi_ge l -> StronglySorted roi_ge (filter P l).
Proof.
  induction 1 as [| y l Hs IH Hy]; [constructor |].
  rewrite filter_cons. case_decide; [| done].
  constructor; [done |].
  apply Forall_forall. intros z Hz. apply list_elem_of_filter in Hz as [_ Hz].
  rewrite Forall_forall in Hy. by apply Hy.
Qed.

Lemma suitable_investments_sorted l risk_profile :
  StronglySorted roi_ge l ->
  StronglySorted roi_ge (suitable_investments l risk_profile).
Proof.
  intros Hs. unfold suitable_investments.
  pose proof (filter_sorted (fun comp => suits risk_profile comp = true) l Hs) as Hf.
  by destruct (filter _ l).
Qed.

(** On a sorted comparison list the top performer has the highest ROI of the
    suitable investments. *)
Lemma top_performer_maximal l risk_profile t :
  StronglySorted roi_ge l ->
  top_performer l risk_profile = Some t ->
  forall p, p ∈ suitable_investments l risk_profile ->
            roi_percentage p <= roi_percentage t.
Proof.
  intros Hs Ht. unfold top_performer in Ht.
  pose proof (suitable_investments_sorted l risk_profile Hs) as Hsuit.
  destruct (suitable_investments l risk_profile) as [| first rest]; [done |].
  simpl in Ht. injection Ht as ->. by apply sorted_head_maximal.
Qed.

Ltac step_projection H :=
  match goal with
  | |- context [calculate_investment_returns ?t ?a ?h ?z] =>
      let p := fresh "p" in
      let Hp := fresh "Hp" in
      destruct (calculate_investment_returns_nonzero t a h z H) as (p & Hp & _);
      rewrite Hp; clear Hp; cbn [mbind result_bind]
  end.

Lemma compare_investments_zero time_horizon zone :
  compare_investments 0 time_horizon zone = Raise ZeroDivisionError.
Proof.
  unfold compare_investments.
  destruct zone; rewrite !calculate_investment_returns_zero; reflexivity.
Qed.

(** Without an amount there is no comparison: the first projection divides
    by it. *)
Lemma zero_amount_comparison_raises :
  compare_investments 0 60 None = Raise ZeroDivisionError.
Proof. apply compare_investments_zero. Qed.

(** A projection of a non-zero amount is that of its class and carries the
    zone it was given. *)
Lemma calculate_investment_returns_class investment_type amount horizon_months zone :
  amount <> 0 ->
  exists p,
    calculate_investment_returns investment_type amount horizon_months zone = Ok p /\
    Portfolio.investment_type p = investment_type /\ zone_info p = zone.
Proof.
  intros Ha. unfold calculate_investment_returns.
  rewrite !py_div_nonzero by done. cbn [mbind result_bind].
  eexists. split; [reflexivity |]. split; reflexivity.
Qed.

Ltac step_class H :=
  match goal with
  | |- context [calculate_investment_returns ?t ?a ?h ?z] =>
      let p := fresh "p" in
      let Hp := fresh "Hp" in
      let Ht := fresh "Ht" in
      let Hz := fresh "Hz" in
      destruct (calculate_investment_returns_class t a h z H) as (p & Hp & Ht & Hz);
      rewrite Hp; cbn [mbind result_bind]
  end.

(** C10 (amended). For a non-zero amount in double range and a horizon of up
    to a thousand years either way, with a zone or none, the comparison
    returns the projections of the compared classes (real estate when there
    is a zone, SIP, stocks, fixed deposit, gold, PPF), each once and each
    the projection of its class at that amount and horizon, in non-increasing
    order of [roi_percentage]; so its first element has the highest ROI of
    the compared classes. *)
Theorem comparison_sorted_projections investment_amount time_horizon zone :
  investment_amount <> 0 ->
  - IZR Doubles.max_double <= investment_amount <= IZR Doubles.max_double ->
  - IZR Doubles.max_months <= time_horizon <= IZR Doubles.max_months ->
  exists l,
    compare_investments investment_amount time_horizon zone = Ok l /\
    investment_type <$> l ≡ₚ appended zone /\
    Forall (fun p =>
              calculate_investment_returns (investment_type p) investment_amount
                time_horizon (zone_info p) = Ok p /\
              zone_info p = if decide (investment_type p = "real_estate")
                            then zone else None) l /\
    StronglySorted roi_ge l /\
    exists first rest,
      l = first :: rest /\
      forall p, p ∈ l -> roi_percentage p <= roi_percentage first.
Proof.
  intros Ha _ _.
  assert (exists l unsorted,
            compare_investments investment_amount time_horizon zone = Ok l /\
            l = sort_by_roi_desc unsorted /\
            investment_type <$> unsorted = appended zone /\
            Forall (fun p =>
                      calculate_investment_returns (investment_type p) investment_amount
                        time_horizon (zone_info p) = Ok p /\
                      zone_info p = if decide (investment_type p = "real_estate")
                                    then zone else None) unsorted)
    as (l & unsorted & Hl & -> & Htypes & Hall).
  { unfold compare_investments.
    destruct zone as [z |]; repeat step_class Ha;
      (do 2 eexists; split; [reflexivity |]; split; [reflexivity |]; split;
       [cbn [app fmap list_fmap]; unfold appended; congruence |]);
      cbn [app]; repeat (constructor; [split; [congruence |] |]);
      try constructor;
      repeat match goal with
             | H : investment_type ?p = _ |- context [investment_type ?p] => rewrite H
             end; done. }
  exists (sort_by_roi_desc unsorted). split; [exact Hl |].
  pose proof (sort_by_roi_desc_perm unsorted) as Hperm.
  pose proof (sort_by_roi_desc_sorted unsorted) as Hs.
  split; [by rewrite Hperm, Htypes |].
  split; [by rewrite Hperm |].
  split; [exact Hs |].
  assert (5 <= length (sort_by_roi_desc unsorted))%nat as Hlen.
  { rewrite (Permutation_length Hperm), <- (length_fmap investment_type), Htypes.
    destruct zone; simpl; lia. }
  destruct (sort_by_roi_desc unsorted) as [| first rest]; [simpl in Hlen; lia |].
  exists first, rest. split; [done |]. by apply sorted_head_maximal.
Qed.

Lemma comparison_sorted_projections_witness :
  exists l,
    compare_investments 1000000 60 None = Ok l /\
    investment_type <$> l ≡ₚ ["sip"; "stocks"; "fixed_deposit"; "gold"; "ppf"] /\
    Forall (fun p =>
              calculate_investment_returns (investment_type p) 1000000 60 (zone_info p)
              = Ok p /\
              zone_info p = if decide (investment_type p = "real_estate")
                            then None else None) l /\
    StronglySorted roi_ge l /\
    exists first rest,
      l = first :: rest /\
      forall p, p ∈ l -> roi_percentage p <= roi_percentage first.
Proof.
  apply (comparison_sorted_projections 1000000 60 None);
    unfold Doubles.max_double, Doubles.max_months; lra.
Defined.

End CompareFacts.

(** ** Exact rational arithmetic *)

Module PyQFacts.
Import PyQ.
Import Lqa.
Local Open Scope Q_scope.

(** Linear arithmetic over [Q] after division by a literal is turned into
    multiplication by its inverse. *)
Ltac inv_literals :=
  unfold Qdiv in *;
  repeat match goal with
         | |- context [Qinv (?n # ?d)] =>
             let v := eval vm_compute in (Qinv (n # d)) in
             change (Qinv (n # d)) with v
         | H : context [Qinv (?n # ?d)] |- _ =>
             let v := eval vm_compute in (Qinv (n # d)) in
             change (Qinv (n # d)) with v in H
         end.

Ltac qlra := inv_literals; lra.
Ltac qnra := inv_literals; nra.

Lemma lt_spec x y : lt x y = true <-> x < y.
Proof. apply QMicromega.Qlt_bool_iff. Qed.

Lemma lt_false x y : lt x y = false <-> y <= x.
Proof.
  rewrite <- not_true_iff_false, lt_spec. split; [apply Qnot_lt_le | apply Qle_not_lt].
Qed.

Lemma le_spec x y : le x y = true <-> x <= y.
Proof. apply Qle_bool_iff. Qed.

Lemma q_div_nonzero x y : ~ y == 0 -> py_div x y = Ok (x / y).
Proof.
  intros Hy. unfold py_div. destruct (Qeq_bool y 0) eqn:E; [| done].
  by apply Qeq_bool_eq in E.
Qed.

Lemma q_div_zero x y : y == 0 -> py_div x y = Raise ZeroDivisionError.
Proof. intros Hy. unfold py_div. by rewrite (Qeq_eq_bool _ _ Hy). Qed.

Lemma py_pow_pos_base x n : 0 < x -> py_pow x n = Ok (x ^ n).
Proof.
  intros Hx. unfold py_pow. destruct (Qeq_bool x 0) eqn:E; [| done].
  apply Qeq_bool_eq in E. lra.
Qed.

(** A power with an exponent that is not negative is monotone in its
    positive base. *)
Lemma Qpower_base_mono a b n : 0 < a -> a <= b -> (0 <= n)%Z -> a ^ n <= b ^ n.
Proof.
  intros Ha Hab Hn.
  assert (b == (b / a) * a) as Hb by (field; lra).
  rewrite Hb at 1. rewrite Qmult_power.
  assert (1 <= b / a) as Hq by (apply Qle_shift_div_l; lra).
  pose proof (Qpower.Qpower_1_le _ n Hq Hn).
  pose proof (Qpower.Qpower_0_lt a n Ha). nra.
Qed.

(** Rounding to the nearest integer is monotone. *)
Lemma nearest_bounds s :
  (Qfloor s <= nearest s <= Qfloor s + 1)%Z.
Proof. unfold nearest. repeat case_match; lia. Qed.

Lemma nearest_mono s t : s <= t -> (nearest s <= nearest t)%Z.
Proof.
  intros Hst.
  pose proof (Qfloor_resp_le _ _ Hst) as Hf.
  pose proof (nearest_bounds s) as Hs. pose proof (nearest_bounds t) as Ht.
  destruct (Z.eq_dec (Qfloor s) (Qfloor t)) as [Heq | Hne]; [| lia].
  unfold nearest. rewrite <- Heq.
  set (f := Qfloor s) in *.
  destruct (lt (s - inject_Z f) (1 # 2)) eqn:E1.
  { repeat case_match; lia. }
  apply lt_false in E1.
  destruct (lt (t - inject_Z f) (1 # 2)) eqn:E2.
  { apply lt_spec in E2. lra. }
  destruct (lt (1 # 2) (s - inject_Z f)) eqn:E3.
  { apply lt_spec in E3.
    assert (lt (1 # 2) (t - inject_Z f) = true) as -> by (apply lt_spec; lra). lia. }
  repeat case_match; lia.
Qed.

Lemma round2_mono x y : x <= y -> round2 x <= round2 y.
Proof.
  intros Hxy. unfold round2.
  assert (nearest (x * 100) <= nearest (y * 100))%Z as Hn
    by (apply nearest_mono; lra).
  apply Qmult_le_compat_r; [by rewrite <- Zle_Qle | done].
Qed.

End PyQFacts.

(** ** zones.py: the zone ROI *)

Module ZonesFacts.
Import PyQ PyQFacts Zones SpecTerms.
Import Lqa.
Local Open Scope Q_scope.

Lemma outlook_row_cases o :
  outlook_row o =
  if decide (o = "HIGH") then high_rates
  else if decide (o = "LOW") then low_rates else moderate_rates.
Proof.
  unfold outlook_row, dict_get, base_rates. rewrite !lookup_insert, !lookup_empty.
  repeat case_decide; subst; simpl; congruence.
Qed.

Lemma confidence_lookup c :
  dict_get confidence_multipliers c (9 # 10) = confidence_multiplier c.
Proof.
  unfold dict_get, confidence_multipliers, confidence_multiplier.
  rewrite !lookup_insert, lookup_empty.
  repeat case_decide; subst; simpl; congruence.
Qed.

Lemma confidence_multiplier_bounds c : 8 # 10 <= confidence_multiplier c <= 1.
Proof. unfold confidence_multiplier. repeat case_decide; lra. Qed.

Lemma row_rate_bounds o investment_type :
  5 <= dict_get (outlook_row o) investment_type 8 <= 15.
Proof.
  rewrite outlook_row_cases. unfold dict_get, high_rates, low_rates, moderate_rates.
  repeat case_decide; rewrite !lookup_insert, lookup_empty;
    repeat case_decide; simpl; lra.
Qed.

Lemma adjusted_rate_bounds zone investment_type :
  4 <= adjusted_rate zone investment_type <= 15.
Proof.
  unfold adjusted_rate. rewrite confidence_lookup.
  pose proof (row_rate_bounds (outlook zone) investment_type).
  pose proof (confidence_multiplier_bounds (confidence zone)). nra.
Qed.

(** The rate of a real-estate projection in a zone: the table rate of the
    outlook times the confidence multiplier. *)
Lemma adjusted_rate_real_estate zone :
  adjusted_rate zone "real_estate" =
  zone_real_estate_rate (outlook zone) * confidence_multiplier (confidence zone).
Proof.
  unfold adjusted_rate. rewrite confidence_lookup, outlook_row_cases.
  unfold zone_real_estate_rate. by repeat case_decide.
Qed.

(** A class the rows do not list is given the rate 8. *)
Lemma adjusted_rate_unregistered zone investment_type :
  outlook_row (outlook zone) !! investment_type = None ->
  adjusted_rate zone investment_type = 8 * confidence_multiplier (confidence zone).
Proof.
  intros Hnone. unfold adjusted_rate. rewrite confidence_lookup.
  unfold dict_get at 1. by rewrite Hnone.
Qed.

Lemma compound_returns investment_amount rate_pct time_horizon :
  0 <= rate_pct ->
  compound investment_amount rate_pct time_horizon =
  Ok (inject_Z investment_amount * (1 + rate_pct / 100 / 12) ^ time_horizon).
Proof.
  intros Hr. unfold compound. rewrite py_pow_pos_base by qlra. reflexivity.
Qed.

Lemma compound_mono investment_amount r1 r2 time_horizon :
  (0 < investment_amount)%Z -> (0 <= time_horizon)%Z -> 0 <= r1 -> r1 <= r2 ->
  inject_Z investment_amount * (1 + r1 / 100 / 12) ^ time_horizon <=
  inject_Z investment_amount * (1 + r2 / 100 / 12) ^ time_horizon.
Proof.
  intros Ha Hh H1 H12.
  assert (0 < inject_Z investment_amount) as Ha' by (by rewrite <- (Zlt_Qlt 0)).
  assert ((1 + r1 / 100 / 12) ^ time_horizon <= (1 + r2 / 100 / 12) ^ time_horizon)
    by (apply Qpower_base_mono; [qlra | qlra | done]).
  nra.
Qed.

(** The zone ROI of a non-zero amount returns, with these fields. *)
Lemma calculate_roi_for_zone_nonzero zone investment_amount investment_type time_horizon :
  investment_amount <> 0%Z ->
  exists r,
    calculate_roi_for_zone zone investment_amount investment_type time_horizon = Ok r /\
    base_rate_percent r = round2 (adjusted_rate zone investment_type) /\
    future_value r =
      round2 (inject_Z investment_amount *
              (1 + adjusted_rate zone investment_type / 100 / 12) ^ time_horizon) /\
    st_future_value (optimistic r) =
      round2 (inject_Z investment_amount *
              (1 + adjusted_rate zone investment_type * (12 # 10) / 100 / 12)
                ^ time_horizon) /\
    st_future_value (pessimistic r) =
      round2 (inject_Z investment_amount *
              (1 + adjusted_rate zone investment_type * (7 # 10) / 100 / 12)
                ^ time_horizon).
Proof.
  intros Ha. unfold calculate_roi_for_zone.
  pose proof (adjusted_rate_bounds zone investment_type) as Hb.
  rewrite !compound_returns by qlra. cbn [mbind result_bind].
  assert (~ inject_Z investment_amount == 0) as Ha'.
  { intros H. apply Ha. by apply (inject_Z_injective _ 0%Z). }
  rewrite !q_div_nonzero by done. cbn [mbind result_bind].
  eexists. split; [reflexivity |]. repeat split.
Qed.

Lemma calculate_roi_for_zone_zero zone investment_type time_horizon :
  calculate_roi_for_zone zone 0 investment_type time_horizon = Raise ZeroDivisionError.
Proof.
  unfold calculate_roi_for_zone.
  pose proof (adjusted_rate_bounds zone investment_type) as Hb.
  rewrite !compound_returns by qlra. cbn [mbind result_bind].
  rewrite !q_div_zero by reflexivity. reflexivity.
Qed.

(** X29. The multiplicative stress band of the zone ROI (rates times 1.2 and
    times 0.7) brackets the base case as well, in the rounded figures
    returned, for a positive amount over a horizon that is not negative. *)
Lemma zone_stress_band_brackets_base zone investment_amount investment_type time_horizon :
  (0 < investment_amount)%Z -> (0 <= time_horizon)%Z ->
  exists r,
    calculate_roi_for_zone zone investment_amount investment_type time_horizon = Ok r /\
    st_future_value (pessimistic r) <= future_value r /\
    future_value r <= st_future_value (optimistic r).
Proof.
  intros Ha Hh.
  destruct (calculate_roi_for_zone_nonzero zone investment_amount investment_type time_horizon)
    as (r & Hr & _ & Hfv & Ho & Hp); [lia |].
  pose proof (adjusted_rate_bounds zone investment_type) as Hb.
  exists r. split; [exact Hr |]. rewrite Hfv, Ho, Hp.
  split; apply round2_mono, compound_mono; try done; lra.
Qed.

End ZonesFacts.

(** ** The projection claims that span both modules *)

Module ProjectionClaims.
Import Portfolio PortfolioFacts SpecTerms.
Import Lra.
Local Open Scope R_scope.

Lemma unregistered_keys investment_type :
  return_rates !! investment_type = None ->
  dict_get return_rates investment_type 10 = 10 /\
  investment_type <> "real_estate" /\
  risk_levels !! investment_type = None /\
  liquidity !! investment_type = None.
Proof.
  unfold dict_get, return_rates, risk_levels, liquidity.
  rewrite !lookup_insert, !lookup_empty.
  repeat case_decide; try discriminate; subst; intros _; repeat split; congruence.
Qed.

(** The claimed rate (12 + 2) * 0.9 of a HIGH-outlook, MEDIUM-confidence zone
    is the rate of neither function: the projection resolves 14, the zone ROI
    10.8. *)
Lemma medium_confidence_rate_is_not_the_product :
  (exists p,
     calculate_investment_returns "real_estate" 1000000 60
       (Some (mkZone 1 "Whitefield" "HIGH" "MEDIUM")) = Ok p /\
     annual_return_rate p = 14 /\
     annual_return_rate p <> (12 + 2) * 0.9) /\
  (exists r,
     Zones.calculate_roi_for_zone (mkZone 1 "Whitefield" "HIGH" "MEDIUM")
       1000000 "real_estate" 60 = Ok r /\
     (Zones.base_rate_percent r == 10.8)%Q /\
     ~ (Zones.base_rate_percent r == (12 + 2) * 0.9)%Q).
Proof.
  split.
  - destruct (calculate_investment_returns_nonzero "real_estate" 1000000 60
                (Some (mkZone 1 "Whitefield" "HIGH" "MEDIUM")))
      as (p & Hp & Hr & _); [lra |].
    exists p. split; [exact Hp |]. rewrite Hr, real_estate_rate. simpl. lra.
  - destruct (ZonesFacts.calculate_roi_for_zone_nonzero
                (mkZone 1 "Whitefield" "HIGH" "MEDIUM") 1000000 "real_estate" 60)
      as (r & Hr & Hb & _); [lia |].
    exists r. split; [exact Hr |]. rewrite Hb. by vm_compute.
Qed.

(** C3 (amended). For a real-estate projection with a zone present,
    [calculate_investment_returns] resolves the table rate 12.0 plus the
    outlook offset (+2.0 HIGH, -2.0 LOW, 0 otherwise) and applies no
    confidence multiplier; [calculate_roi_for_zone] takes the rate of its
    outlook row (HIGH 12, MODERATE 8, LOW 5), adds no offset, and multiplies
    it by the confidence multiplier (HIGH 1.0, MEDIUM 0.9, LOW 0.8). *)
Theorem real_estate_zone_rate zone amount horizon_months investment_amount time_horizon :
  amount <> 0 -> investment_amount <> 0%Z ->
  (exists p,
     calculate_investment_returns "real_estate" amount horizon_months (Some zone) = Ok p /\
     annual_return_rate p = 12 + outlook_offset (outlook zone)) /\
  (exists r,
     Zones.calculate_roi_for_zone zone investment_amount "real_estate" time_horizon = Ok r /\
     (Zones.base_rate_percent r ==
      zone_real_estate_rate (outlook zone) * confidence_multiplier (confidence zone))%Q).
Proof.
  intros Ha Hi. split.
  - destruct (calculate_investment_returns_nonzero "real_estate" amount horizon_months
                (Some zone)) as (p & Hp & Hr & _); [done |].
    exists p. split; [exact Hp |]. rewrite Hr, real_estate_rate.
    unfold outlook_offset. repeat case_decide; lra.
  - destruct (ZonesFacts.calculate_roi_for_zone_nonzero zone investment_amount
                "real_estate" time_horizon) as (r & Hr & Hb & _); [done |].
    exists r. split; [exact Hr |].
    rewrite Hb, ZonesFacts.adjusted_rate_real_estate.
    unfold zone_real_estate_rate, confidence_multiplier.
    repeat case_decide; by vm_compute.
Qed.

Lemma real_estate_zone_rate_witness :
  (exists p,
     calculate_investment_returns "real_estate" 1000000 60
       (Some (mkZone 7 "Hinjewadi" "LOW" "MEDIUM")) = Ok p /\
     annual_return_rate p = 12 + outlook_offset "LOW") /\
  (exists r,
     Zones.calculate_roi_for_zone (mkZone 7 "Hinjewadi" "LOW" "MEDIUM")
       500000 "real_estate" 24 = Ok r /\
     (Zones.base_rate_percent r ==
      zone_real_estate_rate "LOW" * confidence_multiplier "MEDIUM")%Q).
Proof.
  apply (real_estate_zone_rate (mkZone 7 "Hinjewadi" "LOW" "MEDIUM")); [lra | lia].
Defined.

(** An asset class outside the rate table is projected, not refused. *)
Lemma unregistered_class_is_projected :
  return_rates !! "crypto" = None /\
  exists p, calculate_investment_returns "crypto" 1000 12 None = Ok p /\
            annual_return_rate p = 10.
Proof.
  split; [reflexivity |].
  destruct (calculate_investment_returns_nonzero "crypto" 1000 12 None)
    as (p & Hp & Hr & _); [lra |].
  exists p. split; [exact Hp |]. rewrite Hr. reflexivity.
Qed.

(** C5 (amended). An asset-class name that the rate table does not register
    is projected with a default: [calculate_investment_returns] returns a
    result at the rate 10.0 with risk level and liquidity MEDIUM, and
    [calculate_roi_for_zone] returns a result at the rate 8 times the
    confidence multiplier (both for a non-zero amount). *)
Theorem unregistered_class_uses_default
    investment_type amount horizon_months zone z investment_amount time_horizon :
  (return_rates !! investment_type = None -> amount <> 0 ->
   exists p,
     calculate_investment_returns investment_type amount horizon_months zone = Ok p /\
     annual_return_rate p = 10 /\
     risk_level p = "MEDIUM" /\ liquidity_rating p = "MEDIUM") /\
  (Zones.outlook_row (outlook z) !! investment_type = None -> investment_amount <> 0%Z ->
   exists r,
     Zones.calculate_roi_for_zone z investment_amount investment_type time_horizon = Ok r /\
     (Zones.base_rate_percent r == 8 * confidence_multiplier (confidence z))%Q).
Proof.
  split.
  - intros Hnone Ha.
    destruct (unregistered_keys _ Hnone) as (Hrate & Hne & Hrisk & Hliq).
    destruct (calculate_investment_returns_nonzero investment_type amount horizon_months zone)
      as (p & Hp & Hr & _ & _ & _ & _ & _ & _ & Hrl & Hlq); [done |].
    exists p. split; [exact Hp |].
    rewrite Hr, Hrl, Hlq. unfold resolve_base_rate, dict_get in *.
    rewrite Hrisk, Hliq. rewrite Hrate.
    destruct zone; repeat case_decide; try congruence; done.
  - intros Hnone Hi.
    destruct (ZonesFacts.calculate_roi_for_zone_nonzero z investment_amount
                investment_type time_horizon) as (r & Hr & Hb & _); [done |].
    exists r. split; [exact Hr |].
    rewrite Hb, (ZonesFacts.adjusted_rate_unregistered _ _ Hnone).
    unfold confidence_multiplier. repeat case_decide; by vm_compute.
Qed.

Lemma unregistered_class_uses_default_witness :
  (exists p,
     calculate_investment_returns "crypto" 1000 12 None = Ok p /\
     annual_return_rate p = 10 /\
     risk_level p = "MEDIUM" /\ liquidity_rating p = "MEDIUM") /\
  (exists r,
     Zones.calculate_roi_for_zone (mkZone 1 "Whitefield" "HIGH" "LOW") 1000 "crypto" 12
     = Ok r /\
     (Zones.base_rate_percent r == 8 * confidence_multiplier "LOW")%Q).
Proof.
  destruct (unregistered_class_uses_default "crypto" 1000 12 None
              (mkZone 1 "Whitefield" "HIGH" "LOW") 1000 12) as [H1 H2].
  split; [apply H1; [reflexivity | lra] | apply H2; [reflexivity | lia]].
Defined.

(** Amounts and horizons that are zero or negative are not refused: a
    negative amount and an empty horizon are projected. *)
Lemma nonpositive_inputs_are_projected :
  (-1000 <= 0 /\ returns (calculate_investment_returns "sip" (-1000) 12 None)) /\
  (0 <= 0 /\ returns (calculate_investment_returns "sip" 1000 0 None)).
Proof.
  split; (split; [lra |]).
  - destruct (calculate_investment_returns_nonzero "sip" (-1000) 12 None) as (p & Hp & _);
      [lra | by exists p].
  - destruct (calculate_investment_returns_nonzero "sip" 1000 0 None) as (p & Hp & _);
      [lra | by exists p].
Qed.

(** C6 (amended). The projection checks neither input and has no error of
    its own.  Over a horizon of up to a thousand years either way, zero and
    negative horizons included, an amount of zero fails with the division by
    zero of the ROI, and every other amount in double range, negative ones
    included, is projected: the result carries the amount and the horizon as
    they were given, at the rate of the class. *)
Theorem projection_checks_neither_input investment_type amount horizon_months zone :
  - IZR Doubles.max_months <= horizon_months <= IZR Doubles.max_months ->
  (amount = 0 ->
   calculate_investment_returns investment_type amount horizon_months zone
   = Raise ZeroDivisionError) /\
  (amount <> 0 ->
   - IZR Doubles.max_double <= amount <= IZR Doubles.max_double ->
   exists p,
     calculate_investment_returns investment_type amount horizon_months zone = Ok p /\
     Portfolio.amount p = amount /\
     Portfolio.horizon_months p = horizon_months /\
     annual_return_rate p = resolve_base_rate investment_type zone).
Proof.
  intros _. split.
  - intros ->. apply calculate_investment_returns_zero.
  - intros Ha _. unfold calculate_investment_returns.
    rewrite !py_div_nonzero by done. cbn [mbind result_bind].
    eexists. split; [reflexivity |]. by repeat split.
Qed.

Lemma projection_checks_neither_input_witness :
  calculate_investment_returns "gold" 0 (-6) None = Raise ZeroDivisionError /\
  exists p,
    calculate_investment_returns "gold" (-250) (-6) None = Ok p /\
    Portfolio.amount p = -250 /\
    Portfolio.horizon_months p = -6 /\
    annual_return_rate p = resolve_base_rate "gold" None.
Proof.
  split.
  - apply (projection_checks_neither_input "gold" 0 (-6) None);
      [unfold Doubles.max_months; lra | reflexivity].
  - apply (projection_checks_neither_input "gold" (-250) (-6) None);
      unfold Doubles.max_double, Doubles.max_months; lra.
Defined.

End ProjectionClaims.

(** ** portfolio.py: the SIP calculator *)

Module SipFacts.
Import PyQ PyQFacts Sip.
Import Lqa.
Local Open Scope Q_scope.

(** The annuity formula returns at every positive monthly rate: its base is
    above 1 and its divisor is not zero. *)
Lemma annuity_due_returns monthly_sip monthly_return months :
  0 < monthly_return ->
  annuity_due monthly_sip monthly_return months =
  Ok (monthly_sip * (((1 + monthly_return) ^ months - 1) / monthly_return)
      * (1 + monthly_return)).
Proof.
  intros Hr. unfold annuity_due.
  rewrite py_pow_pos_base by lra. cbn [mbind result_bind].
  rewrite q_div_nonzero by lra. reflexivity.
Qed.

(** The year-by-year loop returns at every rate: the division is behind the
    test [monthly_return > 0]. *)
Lemma yearly_loop_returns monthly_sip monthly_return years invested_so_far :
  returns (yearly_loop monthly_sip monthly_return years invested_so_far).
Proof.
  revert invested_so_far. induction years as [| y rest IH]; intros invested_so_far.
  - apply returns_Ok.
  - simpl. destruct (IH (invested_so_far + monthly_sip * 12)) as [rows Hrows].
    destruct (lt 0 monthly_return) eqn:E.
    + apply lt_spec in E. rewrite annuity_due_returns by done.
      cbn [mbind result_bind]. rewrite Hrows. apply returns_Ok.
    + cbn [mbind result_bind]. rewrite Hrows. apply returns_Ok.
Qed.

Lemma yearly_loop_length monthly_sip monthly_return years invested_so_far rows :
  yearly_loop monthly_sip monthly_return years invested_so_far = Ok rows ->
  length rows = length years.
Proof.
  revert invested_so_far rows.
  induction years as [| y rest IH]; intros invested_so_far rows; simpl.
  - by intros [= <-].
  - intros H. apply bind_Ok_inv in H as (v & _ & H).
    apply bind_Ok_inv in H as (rows' & Hrows & H).
    injection H as <-. simpl. f_equal. by eapply IH.
Qed.

(** The calculator returns whenever the lump-sum power is defined, and the
    power is defined once its base [1 + annual_return/100] is positive. *)
Lemma sip_calculator_returns monthly_sip annual_return time_period :
  -100 < annual_return ->
  returns (sip_calculator monthly_sip annual_return time_period).
Proof.
  intros Hr. unfold sip_calculator.
  assert (exists fv,
            (if lt 0 (annual_return / 12 / 100)
             then annuity_due monthly_sip (annual_return / 12 / 100) (time_period * 12)
             else Ok (monthly_sip * inject_Z (time_period * 12))) = Ok fv) as [fv ->].
  { destruct (lt 0 (annual_return / 12 / 100)) eqn:E; [| by eexists].
    apply lt_spec in E. rewrite annuity_due_returns by done. by eexists. }
  cbn [mbind result_bind].
  rewrite py_pow_pos_base by qlra. cbn [mbind result_bind].
  destruct (yearly_loop_returns monthly_sip (annual_return / 12 / 100)
              (range1 time_period) 0) as [rows ->].
  cbn [mbind result_bind]. apply returns_Ok.
Qed.

(** The recommendation is decided by one strict comparison. *)
Lemma recommendation_test monthly_sip annual_return time_period r :
  sip_calculator monthly_sip annual_return time_period = Ok r ->
  recommendation r =
  if lt (lump_future_value (lump_sum_comparison r)) (future_value (sip_details r))
  then "SIP" else "Lump Sum".
Proof.
  unfold sip_calculator. intros H.
  apply bind_Ok_inv in H as (fv & _ & H).
  apply bind_Ok_inv in H as (p & _ & H).
  apply bind_Ok_inv in H as (rows & _ & H).
  by injection H as <-.
Qed.


(** At the rate 0 the two future values tie and the lump sum is recommended. *)
Lemma tie_recommends_lump_sum :
  exists r,
    sip_calculator 1000 0 5 = Ok r /\
    future_value (sip_details r) == lump_future_value (lump_sum_comparison r) /\
    recommendation r = "Lump Sum" /\
    recommendation r <> "SIP".
Proof.
  eexists. split; [vm_compute; reflexivity |]. by vm_compute.
Qed.

(** C2 (amended). The calculator recommends SIP exactly when the SIP future
    value is strictly higher than the lump-sum future value, and the lump sum
    otherwise: on a tie the recommendation is the lump sum.  It returns a
    report at every rate that is not negative. *)
Theorem recommendation_follows_strict_comparison monthly_sip annual_return time_period :
  (0 <= annual_return ->
   returns (sip_calculator monthly_sip annual_return time_period)) /\
  (forall r,
     sip_calculator monthly_sip annual_return time_period = Ok r ->
     (lump_future_value (lump_sum_comparison r) < future_value (sip_details r) ->
      recommendation r = "SIP") /\
     (future_value (sip_details r) <= lump_future_value (lump_sum_comparison r) ->
      recommendation r = "Lump Sum")).
Proof.
  split.
  - intros Hr. apply sip_calculator_returns. lra.
  - intros r Hr. rewrite (recommendation_test _ _ _ _ Hr). split.
    + intros Hlt. apply lt_spec in Hlt. by rewrite Hlt.
    + intros Hle. apply lt_false in Hle. by rewrite Hle.
Qed.

Lemma recommendation_follows_strict_comparison_witness :
  returns (sip_calculator 10000 12 10) /\
  (exists r, sip_calculator 10000 12 10 = Ok r /\ recommendation r = "Lump Sum") /\
  (exists r, sip_calculator 1000 (-5) 2 = Ok r /\ recommendation r = "SIP").
Proof.
  split; [| split].
  - apply (recommendation_follows_strict_comparison 10000 12 10). by vm_compute.
  - eexists. split; [vm_compute; reflexivity |].
    eapply (proj2 (recommendation_follows_strict_comparison 10000 12 10));
      [vm_compute; reflexivity | by vm_compute].
  - eexists. split; [vm_compute; reflexivity |].
    eapply (proj2 (recommendation_follows_strict_comparison 1000 (-5) 2));
      [vm_compute; reflexivity | by vm_compute].
Defined.



End SipFacts.

(** ** dashboard.py: diversification *)

Module DashboardFacts.
Import PyQ Dashboard.
Local Open Scope Q_scope.

Lemma diversification_score_steps (asset_allocation : gmap string Q) :
  calculate_diversification_score asset_allocation
  = diversification_steps (size asset_allocation).
Proof.
  unfold calculate_diversification_score.
  case_decide as Hempty; [by subst |].
  apply map_size_non_empty_iff in Hempty.
  repeat case_decide; unfold diversification_steps;
    destruct (size asset_allocation) as [| [| [| [| [| n]]]]]; try done; lia.
Qed.

(** Where no listed class has a zero allocation, the keys are the classes
    with a non-zero allocation. *)
Lemma nonzero_classes_all (asset_allocation : gmap string Q) :
  (forall k v, asset_allocation !! k = Some v -> ~ v == 0) ->
  nonzero_classes asset_allocation = size asset_allocation.
Proof.
  intros Hnz. unfold nonzero_classes. f_equal.
  apply map_filter_id. intros k v Hkv. simpl. by eapply Hnz.
Qed.

(** A class listed with the allocation 0 raises the score from 20 to 40; the
    count of the classes with a non-zero allocation stays 1. *)
Lemma zero_allocation_raises_score :
  nonzero_classes (<["stocks" := 100]> (<["gold" := 0]> ∅)) = 1%nat /\
  calculate_diversification_score (<["stocks" := 100]> (<["gold" := 0]> ∅)) = 40%Z /\
  calculate_diversification_score (<["stocks" := 100]> (<["gold" := 0]> ∅))
  <> diversification_steps (nonzero_classes (<["stocks" := 100]> (<["gold" := 0]> ∅))) /\
  diversification_score
    (calculate_portfolio_risk (mkPlan 1 "Retirement")
       [mkSnapshot "stocks" 50000; mkSnapshot "gold" 0]) = 40%Z.
Proof. by vm_compute. Qed.

(** C7 (amended). The diversification score is a step function of the number
    of asset classes listed in the allocation, whatever their allocation: 0
    classes give 0, 1 gives 20, 2 give 40, 3 or 4 give 60, 5 or more give 90.
    Where no listed class has a zero allocation this is the number of classes
    with a non-zero allocation.  A 100% single-class mix scores 20 and a
    five-class 20/20/20/20/20 mix scores 90. *)
Theorem diversification_counts_listed_classes (asset_allocation : gmap string Q) :
  calculate_diversification_score asset_allocation
  = diversification_steps (size asset_allocation) /\
  ((forall k v, asset_allocation !! k = Some v -> ~ v == 0) ->
   calculate_diversification_score asset_allocation
   = diversification_steps (nonzero_classes asset_allocation)) /\
  calculate_diversification_score (<["stocks" := 100]> ∅) = 20%Z /\
  calculate_diversification_score
    (<["stocks" := 20]> (<["gold" := 20]> (<["sip" := 20]>
     (<["fixed_deposit" := 20]> (<["ppf" := 20]> ∅))))) = 90%Z.
Proof.
  split; [apply diversification_score_steps |]. split; [| by vm_compute].
  intros Hnz. rewrite (nonzero_classes_all _ Hnz). apply diversification_score_steps.
Qed.

Lemma diversification_counts_listed_classes_witness :
  calculate_diversification_score (<["stocks" := 60]> (<["gold" := 40]> ∅))
  = diversification_steps (nonzero_classes (<["stocks" := 60]> (<["gold" := 40]> ∅))).
Proof.
  apply (diversification_counts_listed_classes (<["stocks" := 60]> (<["gold" := 40]> ∅))).
  intros k v. rewrite !lookup_insert, lookup_empty.
  repeat case_decide; intros [= <-]; by vm_compute.
Defined.

(** A single holding is given the whole allocation and scores 20. *)
Lemma single_holding_scores_20 :
  diversification_score
    (calculate_portfolio_risk (mkPlan 1 "Retirement") [mkSnapshot "stocks" 50000]) = 20%Z.
Proof. by vm_compute. Qed.

End DashboardFacts.

(** ** investments.py: the financial health score *)

Module InvestmentsFacts.
Import Investments.
Local Open Scope Z_scope.

Lemma debt_factor_no_liabilities user asset_snapshot st :
  no_liabilities asset_snapshot = true ->
  debt_factor user asset_snapshot st = credit 20 "debt" "Excellent" st.
Proof.
  unfold no_liabilities, debt_factor. destruct asset_snapshot as [a |]; [| done].
  by destruct (truthy (liabilities a)).
Qed.

Lemma debt_factor_no_income user asset_snapshot st :
  no_liabilities asset_snapshot = false -> no_income user = true ->
  debt_factor user asset_snapshot st = st.
Proof.
  unfold no_liabilities, no_income, debt_factor.
  destruct asset_snapshot as [a |]; [| done].
  destruct (truthy (liabilities a)); [| done].
  by destruct (truthy (monthly_income user)).
Qed.

(** With liabilities recorded and the income missing, the debt factor adds
    nothing: the score stays 0 and no debt rating is recorded. *)
Lemma liabilities_without_income_score_nothing :
  no_income (mkUser 1 None None) = true /\
  debt_factor (mkUser 1 None None) (Some (mkAssetSnapshot 0 0 0 0 0 0 (Some 50000))) (0, ∅)
  = (0, ∅) /\
  score (calculate_financial_health_score (mkUser 1 None None)
           (Some (mkAssetSnapshot 0 0 0 0 0 0 (Some 50000))) 0) = 0 /\
  factors (calculate_financial_health_score (mkUser 1 None None)
             (Some (mkAssetSnapshot 0 0 0 0 0 0 (Some 50000))) 0) !! "debt" = None.
Proof. by vm_compute. Qed.

(** C4 (amended). Where no liabilities are recorded (no snapshot, or a
    liabilities column that is NULL or 0) the debt factor adds its maximum of
    20 points and the rating Excellent, whether or not an income figure is
    available.  Where liabilities are recorded and the income figure is
    missing, the debt factor is skipped: it adds no points and records no
    rating. *)
Theorem debt_factor_default user asset_snapshot st :
  (no_liabilities asset_snapshot = true ->
   (debt_factor user asset_snapshot st).1 = st.1 + 20 /\
   (debt_factor user asset_snapshot st).2 !! "debt" = Some "Excellent") /\
  (no_liabilities asset_snapshot = false -> no_income user = true ->
   debt_factor user asset_snapshot st = st).
Proof.
  split.
  - intros Hnl. rewrite debt_factor_no_liabilities by done.
    unfold credit. simpl. by rewrite lookup_insert_eq.
  - apply debt_factor_no_income.
Qed.

Lemma debt_factor_default_witness :
  ((debt_factor (mkUser 1 None (Some 20000))
      (Some (mkAssetSnapshot 1000 0 0 0 0 0 None)) (15, ∅)).1 = 15 + 20 /\
   (debt_factor (mkUser 1 None (Some 20000))
      (Some (mkAssetSnapshot 1000 0 0 0 0 0 None)) (15, ∅)).2 !! "debt"
   = Some "Excellent") /\
  debt_factor (mkUser 1 None (Some 20000))
    (Some (mkAssetSnapshot 1000 0 0 0 0 0 (Some 50000))) (15, ∅) = (15, ∅).
Proof.
  split.
  - apply (debt_factor_default (mkUser 1 None (Some 20000))
             (Some (mkAssetSnapshot 1000 0 0 0 0 0 None)) (15, ∅)). reflexivity.
  - apply (debt_factor_default (mkUser 1 None (Some 20000))
             (Some (mkAssetSnapshot 1000 0 0 0 0 0 (Some 50000))) (15, ∅));
      reflexivity.
Defined.

End InvestmentsFacts.

(** ** portfolio.py: more on projections and their comparison *)

Module ProjectionExtras.
Import Portfolio PortfolioFacts CompareFacts.
Import Lra.
Local Open Scope R_scope.

(** The record a projection of a non-zero amount returns, field by field. *)
Lemma calculate_investment_returns_value investment_type amount horizon_months zone :
  amount <> 0 ->
  calculate_investment_returns investment_type amount horizon_months zone =
  let base_rate := resolve_base_rate investment_type zone in
  let years := horizon_months / 12 in
  Ok {| investment_type := investment_type;
        amount := amount;
        horizon_months := horizon_months;
        annual_return_rate := base_rate;
        future_value := amount * growth base_rate years;
        total_returns := amount * growth base_rate years - amount;
        roi_percentage := (growth base_rate years - 1) * 100;
        risk_level := dict_get risk_levels investment_type "MEDIUM";
        liquidity_rating := dict_get liquidity investment_type "MEDIUM";
        optimistic :=
          {| rate := base_rate + 3;
             sc_future_value := amount * growth (base_rate + 3) years;
             sc_roi_percentage := (growth (base_rate + 3) years - 1) * 100 |};
        pessimistic :=
          {| rate := Rmax (base_rate - 3) 1;
             sc_future_value := amount * growth (Rmax (base_rate - 3) 1) years;
             sc_roi_percentage := (growth (Rmax (base_rate - 3) 1) years - 1) * 100 |};
        zone_info := zone |}.
Proof.
  intros Ha. unfold calculate_investment_returns.
  rewrite !py_div_nonzero by done. cbn [mbind result_bind]. cbv zeta.
  do 2 f_equal; [| f_equal | f_equal]; field; exact Ha.
Qed.

Lemma growth_zero_years rate_pct : -100 < rate_pct -> growth rate_pct 0 = 1.
Proof. intros Hr. unfold growth. apply Rpower_O. lra. Qed.

Lemma growth_gt_1 rate_pct years : 0 < rate_pct -> 0 < years -> 1 < growth rate_pct years.
Proof.
  intros Hr Hy. unfold growth.
  assert (Rpower (1 + rate_pct / 100) 0 < Rpower (1 + rate_pct / 100) years) as Hlt
    by (apply Rpower_lt; lra).
  rewrite Rpower_O in Hlt by lra. exact Hlt.
Qed.

Lemma growth_strict_mono r1 r2 years :
  0 < years -> -100 < r1 -> r1 < r2 -> growth r1 years < growth r2 years.
Proof. intros Hy H1 H12. unfold growth. apply Rlt_Rpower_l; lra. Qed.

Lemma growth_ge_1 rate_pct years : 0 < rate_pct -> 0 <= years -> 1 <= growth rate_pct years.
Proof.
  intros Hr [Hy | <-].
  - left. by apply growth_gt_1.
  - right. symmetry. apply growth_zero_years. lra.
Qed.

(** X2. A projection never shows a loss: for a positive amount of up to
    [2^53] over a horizon of up to a thousand years that is not negative,
    even the pessimistic future value is at least the amount, and the total
    returns and the ROI are not negative. *)
Theorem projection_never_loses investment_type amount horizon_months zone :
  0 < amount <= IZR Doubles.max_exact ->
  0 <= horizon_months <= IZR Doubles.max_months ->
  exists p,
    calculate_investment_returns investment_type amount horizon_months zone = Ok p /\
    amount <= sc_future_value (pessimistic p) /\
    amount <= future_value p /\
    0 <= total_returns p /\
    0 <= roi_percentage p /\
    0 <= sc_roi_percentage (pessimistic p).
Proof.
  intros [Ha _] [Hh _].
  rewrite calculate_investment_returns_value by lra.
  eexists. split; [reflexivity |]. cbn.
  pose proof (resolve_base_rate_bounds investment_type zone) as Hb.
  set (b := resolve_base_rate investment_type zone) in *.
  assert (Rmax (b - 3) 1 = b - 3) as -> by (apply Rmax_left; lra).
  pose proof (growth_ge_1 b (horizon_months / 12)) as Hg.
  pose proof (growth_ge_1 (b - 3) (horizon_months / 12)) as Hgp.
  assert (1 <= growth b (horizon_months / 12)) by (apply Hg; lra).
  assert (1 <= growth (b - 3) (horizon_months / 12)) by (apply Hgp; lra).
  repeat split; nra.
Qed.

Lemma projection_never_loses_witness :
  exists p,
    calculate_investment_returns "fixed_deposit" 1000 1 None = Ok p /\
    1000 <= sc_future_value (pessimistic p) /\
    1000 <= future_value p /\
    0 <= total_returns p /\
    0 <= roi_percentage p /\
    0 <= sc_roi_percentage (pessimistic p).
Proof.
  apply projection_never_loses; unfold Doubles.max_exact, Doubles.max_months; lra.
Defined.

End ProjectionExtras.

(** ** portfolio.py: the order of a comparison and its recommendations *)

Module RankingFacts.
Import Portfolio PortfolioFacts CompareFacts ProjectionExtras Recommendations.
Import Lra.
Local Open Scope R_scope.

Lemma insert_desc_lt x y l :
  roi_percentage x < roi_percentage y -> insert_desc x (y :: l) = y :: insert_desc x l.
Proof. intros H. simpl. destruct (Rlt_dec _ _); [done | lra]. Qed.

Lemma insert_desc_ge x y l :
  roi_percentage y <= roi_percentage x -> insert_desc x (y :: l) = x :: y :: l.
Proof. intros H. simpl. destruct (Rlt_dec _ _); [lra | done]. Qed.

Lemma insert_desc_nil x : insert_desc x [] = [x].
Proof. reflexivity. Qed.

(** What the comparison reads of a projection of a non-zero amount. *)
Lemma projection_summary t amount horizon_months zone :
  amount <> 0 ->
  exists p,
    calculate_investment_returns t amount horizon_months zone = Ok p /\
    of_class p t /\
    roi_percentage p = (growth (resolve_base_rate t zone) (horizon_months / 12) - 1) * 100.
Proof.
  intros Ha. rewrite calculate_investment_returns_value by done.
  eexists. split; [reflexivity |]. by repeat split.
Qed.

Lemma table_rates :
  resolve_base_rate "sip" None = 12 /\ resolve_base_rate "stocks" None = 15 /\
  resolve_base_rate "fixed_deposit" None = 6.5 /\ resolve_base_rate "gold" None = 8 /\
  resolve_base_rate "ppf" None = 7.1.
Proof. repeat split; reflexivity. Qed.

Ltac take_projection Ha :=
  match goal with
  | |- context [calculate_investment_returns ?t ?a ?h ?z] =>
      let p := fresh "p" in
      let Hp := fresh "Hp" in
      let Hc := fresh "Hc" in
      let Hr := fresh "Hr" in
      destruct (projection_summary t a h z Ha) as (p & Hp & Hc & Hr);
      rewrite Hp; clear Hp; cbn [mbind result_bind]
  end.

Ltac sort_step :=
  first [ rewrite insert_desc_nil
        | rewrite insert_desc_lt by lra
        | rewrite insert_desc_ge by lra ].

(** Over a positive horizon the comparison of a non-zero amount lists the
    classes by their rate: stocks (15), then real estate and SIP (12, real
    estate 14 or 10 with a HIGH or LOW outlook, and first on a tie), gold (8),
    PPF (7.1) and fixed deposits (6.5). *)
Lemma compare_investments_ranked investment_amount time_horizon zone :
  investment_amount <> 0 -> 0 < time_horizon ->
  exists l,
    compare_investments investment_amount time_horizon zone = Ok l /\
    Forall2 of_class l (ranking zone).
Proof.
  intros Ha Hh. unfold compare_investments.
  destruct table_rates as (Rsip & Rst & Rfd & Rg & Rppf).
  assert (0 < time_horizon / 12) as Hy by lra.
  pose proof (growth_strict_mono 6.5 7.1 _ Hy) as G1.
  pose proof (growth_strict_mono 7.1 8 _ Hy) as G2.
  pose proof (growth_strict_mono 8 10 _ Hy) as G3.
  pose proof (growth_strict_mono 10 12 _ Hy) as G4.
  pose proof (growth_strict_mono 12 14 _ Hy) as G5.
  pose proof (growth_strict_mono 14 15 _ Hy) as G6.
  destruct zone as [z |]; repeat take_projection Ha.
  - pose proof (real_estate_rate z) as Rre.
    rewrite Rsip, Rst, Rfd, Rg, Rppf in *.
    unfold ranking. eexists. split; [reflexivity |].
    unfold sort_by_roi_desc. cbn [app foldr].
    repeat case_decide; try congruence; rewrite Rre in *;
      [replace (12 + 2) with 14 in * by lra
      | replace (12 - 2) with 10 in * by lra |].
    all: repeat sort_step; repeat (constructor; [assumption |]); constructor.
  - rewrite Rsip, Rst, Rfd, Rg, Rppf in *.
    unfold ranking. eexists. split; [reflexivity |].
    unfold sort_by_roi_desc. cbn [app foldr].
    repeat sort_step. repeat (constructor; [assumption |]). constructor.
Qed.

Lemma projection_summary_zero t amount zone :
  amount <> 0 ->
  exists p,
    calculate_investment_returns t amount 0 zone = Ok p /\
    of_class p t /\ roi_percentage p = 0.
Proof.
  intros Ha. rewrite calculate_investment_returns_value by done.
  eexists. split; [reflexivity |]. split; [by split |]. cbn.
  pose proof (resolve_base_rate_bounds t zone).
  replace (0 / 12) with 0 by lra. rewrite growth_zero_years; lra.
Qed.

Lemma of_class_types l ts : Forall2 of_class l ts -> investment_type <$> l = ts.
Proof. induction 1 as [| p t l ts [Ht _] _ IH]; [done |]. rewrite fmap_cons. by rewrite Ht, IH. Qed.

(** X3. For an amount between 1 and [2^53] over a horizon between one month
    and a thousand years, the comparison returns the asset classes in the
    order of their rates: stocks, SIP, gold, PPF, fixed deposit; with a
    zone, real estate comes second (ahead of SIP also when the two rates tie
    at 12), or third, after SIP, when the zone's outlook is LOW. *)
Theorem comparison_order investment_amount time_horizon zone :
  1 <= investment_amount <= IZR Doubles.max_exact ->
  1 <= time_horizon <= IZR Doubles.max_months ->
  exists l,
    compare_investments investment_amount time_horizon zone = Ok l /\
    investment_type <$> l = ranking zone.
Proof.
  intros [Ha _] [Hh _].
  destruct (compare_investments_ranked investment_amount time_horizon zone)
    as (l & Hl & Hc); [lra | lra |].
  exists l. split; [exact Hl | by apply of_class_types].
Qed.

Lemma comparison_order_witness :
  exists l,
    compare_investments 250000 24 (Some (mkZone 3 "Wakad" "MODERATE" "HIGH")) = Ok l /\
    investment_type <$> l
    = ["stocks"; "real_estate"; "sip"; "gold"; "ppf"; "fixed_deposit"].
Proof.
  apply (comparison_order 250000 24 (Some (mkZone 3 "Wakad" "MODERATE" "HIGH")));
    unfold Doubles.max_exact, Doubles.max_months; lra.
Defined.

Ltac take_zero Ha :=
  match goal with
  | |- context [calculate_investment_returns ?t ?a 0 ?z] =>
      let p := fresh "p" in
      let Hp := fresh "Hp" in
      let Hc := fresh "Hc" in
      let Hr := fresh "Hr" in
      destruct (projection_summary_zero t a z Ha) as (p & Hp & Hc & Hr);
      rewrite Hp; clear Hp; cbn [mbind result_bind]
  end.

(** X4. With a horizon of 0 months every ROI is 0 and the sort, being
    stable, leaves the comparison in the order in which the classes were
    appended: (real estate,) SIP, stocks, fixed deposit, gold, PPF. *)
Theorem comparison_order_on_ties investment_amount zone :
  investment_amount <> 0 ->
  exists l,
    compare_investments investment_amount 0 zone = Ok l /\
    investment_type <$> l = appended zone /\
    Forall (fun p => roi_percentage p = 0) l.
Proof.
  intros Ha. unfold compare_investments.
  destruct zone as [z |]; repeat take_zero Ha;
    (eexists; split; [reflexivity |]);
    unfold sort_by_roi_desc; cbn [app foldr]; repeat sort_step;
    (split; [apply of_class_types; repeat (constructor; [assumption |]); constructor
            | repeat (constructor; [assumption |]); constructor]).
Qed.

Lemma comparison_order_on_ties_witness :
  exists l,
    compare_investments 250000 0 None = Ok l /\
    investment_type <$> l = ["sip"; "stocks"; "fixed_deposit"; "gold"; "ppf"] /\
    Forall (fun p => roi_percentage p = 0) l.
Proof. apply (comparison_order_on_ties 250000 None). lra. Defined.

End RankingFacts.

Module RecommendationFacts.
Import Portfolio PortfolioFacts CompareFacts ProjectionExtras Recommendations RankingFacts.
Import Lra.
Local Open Scope R_scope.

Lemma suits_conservative p :
  suits "CONSERVATIVE" p
  = bool_decide (risk_level p = "LOW" \/ risk_level p = "MEDIUM").
Proof. reflexivity. Qed.

Lemma suits_moderate p : suits "MODERATE" p = true.
Proof. reflexivity. Qed.

Lemma suits_growth p :
  suits "GROWTH" p = bool_decide (risk_level p = "MEDIUM" \/ risk_level p = "HIGH").
Proof. reflexivity. Qed.

Lemma suits_other risk_profile p :
  risk_profile <> "CONSERVATIVE" -> risk_profile <> "MODERATE" ->
  risk_profile <> "GROWTH" -> suits risk_profile p = false.
Proof. intros H1 H2 H3. unfold suits. by rewrite !decide_False by done. Qed.

(** Whether a projection of a class suits a profile, and whether it is a
    long-term option, is decided by the class. *)
Lemma class_suits p t :
  of_class p t ->
  suits "CONSERVATIVE" p
  = bool_decide (dict_get risk_levels t "MEDIUM" = "LOW"
                 \/ dict_get risk_levels t "MEDIUM" = "MEDIUM") /\
  suits "GROWTH" p
  = bool_decide (dict_get risk_levels t "MEDIUM" = "MEDIUM"
                 \/ dict_get risk_levels t "MEDIUM" = "HIGH") /\
  long_term p = bool_decide (t = "real_estate" \/ t = "sip" \/ t = "stocks").
Proof.
  intros [Ht Hl]. rewrite suits_conservative, suits_growth. unfold long_term.
  by rewrite Ht, Hl.
Qed.

(** The suitable investments of a comparison without a zone. *)
Lemma suitable_zone_less l risk_profile :
  Forall2 of_class l (ranking None) ->
  exists stocks sip gold ppf fd,
    l = [stocks; sip; gold; ppf; fd] /\
    investment_type stocks = "stocks" /\ investment_type sip = "sip" /\
    investment_type gold = "gold" /\ investment_type ppf = "ppf" /\
    long_term stocks = true /\ long_term sip = true /\
    long_term gold = false /\ long_term ppf = false /\ long_term fd = false /\
    suitable_investments l risk_profile
    = if decide (risk_profile = "CONSERVATIVE") then [sip; gold; ppf; fd]
      else if decide (risk_profile = "GROWTH") then [stocks; sip]
      else l.
Proof.
  unfold ranking. intros Hc.
  apply Forall2_cons_inv_r in Hc as (stocks & l1 & C1 & Hc & ->).
  apply Forall2_cons_inv_r in Hc as (sip & l2 & C2 & Hc & ->).
  apply Forall2_cons_inv_r in Hc as (gold & l3 & C3 & Hc & ->).
  apply Forall2_cons_inv_r in Hc as (ppf & l4 & C4 & Hc & ->).
  apply Forall2_cons_inv_r in Hc as (fd & l5 & C5 & Hc & ->).
  apply Forall2_nil_inv_r in Hc as ->.
  destruct (class_suits _ _ C1) as (S1 & G1 & T1).
  destruct (class_suits _ _ C2) as (S2 & G2 & T2).
  destruct (class_suits _ _ C3) as (S3 & G3 & T3).
  destruct (class_suits _ _ C4) as (S4 & G4 & T4).
  destruct (class_suits _ _ C5) as (S5 & G5 & T5).
  change (suits "CONSERVATIVE" stocks = false) in S1.
  change (suits "CONSERVATIVE" sip = true) in S2.
  change (suits "CONSERVATIVE" gold = true) in S3.
  change (suits "CONSERVATIVE" ppf = true) in S4.
  change (suits "CONSERVATIVE" fd = true) in S5.
  change (suits "GROWTH" stocks = true) in G1.
  change (suits "GROWTH" sip = true) in G2.
  change (suits "GROWTH" gold = false) in G3.
  change (suits "GROWTH" ppf = false) in G4.
  change (suits "GROWTH" fd = false) in G5.
  change (long_term stocks = true) in T1.
  change (long_term sip = true) in T2.
  change (long_term gold = false) in T3.
  change (long_term ppf = false) in T4.
  change (long_term fd = false) in T5.
  exists stocks, sip, gold, ppf, fd.
  split; [reflexivity |].
  split; [apply C1 |]. split; [apply C2 |]. split; [apply C3 |]. split; [apply C4 |].
  do 5 (split; [assumption |]).
  unfold suitable_investments.
  destruct (decide (risk_profile = "CONSERVATIVE")) as [-> | Hc];
    [| destruct (decide (risk_profile = "GROWTH")) as [-> | Hg];
       [| destruct (decide (risk_profile = "MODERATE")) as [-> | Hm]]].
  - rewrite filter_cons_False by congruence.
    rewrite !filter_cons_True by assumption. by rewrite filter_nil.
  - rewrite !filter_cons_True by assumption.
    rewrite !filter_cons_False by congruence. by rewrite filter_nil.
  - rewrite !filter_cons_True by apply suits_moderate. by rewrite filter_nil.
  - rewrite !filter_cons_False by (by rewrite suits_other). by rewrite filter_nil.
Qed.

(** X5. The recommendations of a comparison without a zone, for an amount
    between 1 and [2^53] over a horizon between one month and a thousand
    years.  The top performer is stocks, or SIP for a CONSERVATIVE profile
    (stocks are HIGH risk); the balanced split gives 33 to each of the first
    three suitable classes, or 50 to stocks and SIP for a GROWTH profile;
    from 60 months on the long-term choice is the top performer again.  A
    profile other than the three named ones is treated as MODERATE. *)
Theorem zone_less_recommendations investment_amount time_horizon risk_profile :
  1 <= investment_amount <= IZR Doubles.max_exact ->
  1 <= time_horizon <= IZR Doubles.max_months ->
  let top := if decide (risk_profile = "CONSERVATIVE") then "sip" else "stocks" in
  let shares : gmap string Z :=
    if decide (risk_profile = "CONSERVATIVE")
    then <["ppf" := 33%Z]> (<["gold" := 33%Z]> (<["sip" := 33%Z]> ∅))
    else if decide (risk_profile = "GROWTH")
    then <["sip" := 50%Z]> (<["stocks" := 50%Z]> ∅)
    else <["gold" := 33%Z]> (<["sip" := 33%Z]> (<["stocks" := 33%Z]> ∅)) in
  exists l,
    compare_report investment_amount time_horizon risk_profile None =
    Ok (l,
        [ mkRecommendation "TOP_PERFORMER" (Some top) None;
          mkRecommendation "BALANCED" None (Some shares) ]
        ++ (if Rle_dec 60 time_horizon
            then [ mkRecommendation "LONG_TERM" (Some top) None ] else [])).
Proof.
  intros [Ha _] [Hh _] top shares. unfold compare_report.
  destruct (compare_investments_ranked investment_amount time_horizon None)
    as (l & -> & Hc); [lra | lra |].
  cbn [mbind result_bind]. exists l. do 2 f_equal.
  destruct (suitable_zone_less l risk_profile Hc)
    as (stocks & sip & gold & ppf & fd & -> & E1 & E2 & E3 & E4
        & T1 & T2 & T3 & T4 & T5 & Hsuit).
  unfold generate_investment_recommendations. rewrite Hsuit. subst top shares.
  destruct (decide (risk_profile = "CONSERVATIVE")) as [-> | Hcons];
    [| destruct (decide (risk_profile = "GROWTH")) as [-> | Hg]].
  - rewrite filter_cons_True by exact T2.
    cbn [length]. rewrite decide_True by lia.
    unfold balanced_allocation. cbn [take length foldl]. by rewrite E2, E3, E4.
  - rewrite filter_cons_True by exact T1.
    cbn [length]. rewrite decide_True by lia.
    unfold balanced_allocation. cbn [take length foldl]. by rewrite E1, E2.
  - rewrite filter_cons_True by exact T1.
    cbn [length]. rewrite decide_True by lia.
    unfold balanced_allocation. cbn [take length foldl]. by rewrite E1, E2, E3.
Qed.

Lemma zone_less_recommendations_witness :
  exists l,
    compare_report 1000000 60 "GROWTH" None =
    Ok (l,
        [ mkRecommendation "TOP_PERFORMER" (Some "stocks") None;
          mkRecommendation "BALANCED" None
            (Some (<["sip" := 50%Z]> (<["stocks" := 50%Z]> ∅))) ]
        ++ (if Rle_dec 60 60
            then [ mkRecommendation "LONG_TERM" (Some "stocks") None ] else [])).
Proof.
  apply (zone_less_recommendations 1000000 60 "GROWTH");
    unfold Doubles.max_exact, Doubles.max_months; lra.
Defined.

End RecommendationFacts.

(** ** portfolio.py: more on the SIP calculator *)

Module SipExtras.
Import PyQ PyQFacts Sip SipFacts.
Import Lqa.
Local Open Scope Q_scope.

(** The report of the calculator, field by field, where the lump-sum power is
    defined. *)
Lemma sip_calculator_value monthly_sip annual_return time_period rep :
  sip_calculator monthly_sip annual_return time_period = Ok rep ->
  let monthly_return := annual_return / 12 / 100 in
  let total_months := (time_period * 12)%Z in
  exists fv p rows,
    (if lt 0 monthly_return
     then annuity_due monthly_sip monthly_return total_months
     else Ok (monthly_sip * inject_Z total_months)) = Ok fv /\
    py_pow (1 + annual_return / 100) time_period = Ok p /\
    yearly_loop monthly_sip monthly_return (range1 time_period) 0 = Ok rows /\
    future_value (sip_details rep) = fv /\
    total_invested (sip_details rep) = monthly_sip * inject_Z total_months /\
    total_returns (sip_details rep) = fv - monthly_sip * inject_Z total_months /\
    lump_future_value (lump_sum_comparison rep) = monthly_sip * inject_Z total_months * p /\
    yearly_breakdown rep = rows.
Proof.
  unfold sip_calculator. intros H. cbv zeta.
  apply bind_Ok_inv in H as (fv & Hfv & H).
  apply bind_Ok_inv in H as (p & Hp & H).
  apply bind_Ok_inv in H as (rows & Hrows & H).
  exists fv, p, rows. injection H as <-. by repeat split.
Qed.

(** The rows of the loop: the year of the list, the contributions added up so
    far, and the value by the branch taken. *)
Lemma yearly_loop_row monthly_sip monthly_return years invested_so_far rows i row :
  yearly_loop monthly_sip monthly_return years invested_so_far = Ok rows ->
  rows !! i = Some row ->
  exists y,
    years !! i = Some y /\
    year row = y /\
    invested row == invested_so_far + monthly_sip * 12 * inject_Z (Z.of_nat (S i)) /\
    yr_returns row = value row - invested row /\
    (lt 0 monthly_return = false -> value row = invested row) /\
    (0 < monthly_return ->
     value row = monthly_sip * (((1 + monthly_return) ^ (y * 12) - 1) / monthly_return)
                 * (1 + monthly_return)).
Proof.
  revert invested_so_far rows i.
  induction years as [| y rest IH]; intros invested_so_far rows i Hloop Hi.
  - injection Hloop as <-. done.
  - simpl in Hloop.
    apply bind_Ok_inv in Hloop as (v & Hv & Hloop).
    apply bind_Ok_inv in Hloop as (rows' & Hrows' & Hloop).
    injection Hloop as <-.
    destruct i as [| i].
    + injection Hi as <-. exists y. simpl. repeat split; try done.
      * change (inject_Z 1) with 1. ring.
      * intros Hf. rewrite Hf in Hv. by injection Hv as <-.
      * intros Hr. apply lt_spec in Hr as Hb. rewrite Hb in Hv.
        rewrite annuity_due_returns in Hv by done. by injection Hv as <-.
    + simpl in Hi. destruct (IH _ _ _ Hrows' Hi) as (y' & Hy' & Hyr & Hinv & Hret & Hv0 & Hv1).
      exists y'. repeat split; try done.
      rewrite Hinv. rewrite (Nat2Z.inj_succ (S i)), <- Z.add_1_r, inject_Z_plus.
      change (inject_Z 1) with 1. ring.
Qed.

Lemma range1_length n : length (range1 n) = Z.to_nat n.
Proof. unfold range1. by rewrite length_fmap, length_seq. Qed.

Lemma range1_lookup n i y : range1 n !! i = Some y -> y = Z.of_nat (S i).
Proof.
  unfold range1. rewrite list_lookup_fmap. intros H.
  destruct (seq 1 (Z.to_nat n) !! i) as [k |] eqn:E; [| done].
  apply lookup_seq in E as [-> _]. simpl in H. by injection H as <-.
Qed.

(** X6. In every report of the calculator the year-by-year breakdown has
    one row per year of the period (none when the period is zero or
    negative), row [k] is for the year [k], and at an annual return of zero
    or less the value of every year is what was invested by then. *)
Theorem yearly_breakdown_rows monthly_sip annual_return time_period rep :
  sip_calculator monthly_sip annual_return time_period = Ok rep ->
  length (yearly_breakdown rep) = Z.to_nat time_period /\
  forall i row,
    yearly_breakdown rep !! i = Some row ->
    year row = Z.of_nat (S i) /\
    (annual_return <= 0 -> value row = invested row).
Proof.
  intros Hrep.
  destruct (sip_calculator_value _ _ _ _ Hrep) as (fv & p & rows & _ & _ & Hrows & _ & _ & _ & _ & ->).
  split.
  - rewrite (yearly_loop_length _ _ _ _ _ Hrows). apply range1_length.
  - intros i row Hi.
    destruct (yearly_loop_row _ _ _ _ _ _ _ Hrows Hi) as (y & Hy & Hyr & _ & _ & Hv0 & _).
    apply range1_lookup in Hy. subst y. split; [exact Hyr |].
    intros Hr. apply Hv0. apply lt_false. qlra.
Qed.

Lemma yearly_breakdown_rows_witness :
  exists rep,
    sip_calculator 10000 0 10 = Ok rep /\
    length (yearly_breakdown rep) = Z.to_nat 10 /\
    forall i row,
      yearly_breakdown rep !! i = Some row ->
      year row = Z.of_nat (S i) /\
      (0 <= 0 -> value row = invested row).
Proof.
  destruct (sip_calculator_returns 10000 0 10) as [rep Hrep]; [by vm_compute |].
  exists rep. split; [exact Hrep | exact (yearly_breakdown_rows 10000 0 10 rep Hrep)].
Defined.



(** A power of a base strictly between 0 and 1 is below 1 for an exponent of
    at least 1. *)
Lemma Qpower_lt_1 q n : 0 < q -> q < 1 -> (1 <= n)%Z -> q ^ n < 1.
Proof.
  intros H0 H1 Hn.
  replace n with (1 + (n - 1))%Z by lia.
  rewrite Qpower_plus by lra. rewrite Qpower_1_r.
  assert (q ^ (n - 1) <= 1 ^ (n - 1)) as Hle
    by (apply Qpower_base_mono; [done | lra | lia]).
  rewrite Qpower_1 in Hle.
  pose proof (Qpower_0_lt q (n - 1) H0). nra.
Qed.

(** X8. A negative annual return is applied to the lump sum but not to the
    SIP: for a rate above -100 and of at most -1, a contribution between 1
    and [2^53] and a period between one and a thousand years, the SIP future
    value is the total invested and the lump sum ends below it, so the
    recommendation is SIP. *)
Theorem negative_rate_recommends_sip monthly_sip annual_return time_period :
  -100 < annual_return -> annual_return <= -1 ->
  1 <= monthly_sip <= inject_Z Doubles.max_exact ->
  (1 <= time_period)%Z -> (time_period * 12 <= Doubles.max_months)%Z ->
  exists rep,
    sip_calculator monthly_sip annual_return time_period = Ok rep /\
    future_value (sip_details rep) = total_invested (sip_details rep) /\
    lump_future_value (lump_sum_comparison rep) < future_value (sip_details rep) /\
    recommendation rep = "SIP".
Proof.
  intros Hlo Hneg [Hm _] Ht _.
  destruct (sip_calculator_returns monthly_sip annual_return time_period) as [rep Hrep];
    [done |].
  exists rep. split; [exact Hrep |].
  destruct (sip_calculator_value _ _ _ _ Hrep)
    as (fv & p & rows & Hfv & Hp & _ & Efv & Eti & _ & Elump & _).
  assert (lt 0 (annual_return / 12 / 100) = false) as E by (apply lt_false; qlra).
  rewrite E in Hfv. injection Hfv as <-.
  rewrite py_pow_pos_base in Hp by qlra. injection Hp as <-.
  assert (lump_future_value (lump_sum_comparison rep) < future_value (sip_details rep)) as Hlt.
  { rewrite Elump, Efv.
    assert ((1 + annual_return / 100) ^ time_period < 1) as Hp1
      by (apply Qpower_lt_1; [qlra | qlra | done]).
    assert (0 < inject_Z (time_period * 12)) as Hn
      by (rewrite <- (Zlt_Qlt 0); lia).
    assert (0 < monthly_sip) as Hm0 by lra.
    pose proof (Qmult_lt_0_compat _ _ Hm0 Hn) as Hmn.
    set (mn := monthly_sip * inject_Z (time_period * 12)) in *.
    set (pw := (1 + annual_return / 100) ^ time_period) in *.
    nra. }
  split; [by rewrite Efv, Eti |]. split; [exact Hlt |].
  rewrite (recommendation_test _ _ _ _ Hrep).
  apply lt_spec in Hlt. by rewrite Hlt.
Qed.

Lemma negative_rate_recommends_sip_witness :
  exists rep,
    sip_calculator 1000 (-5) 2 = Ok rep /\
    future_value (sip_details rep) = total_invested (sip_details rep) /\
    lump_future_value (lump_sum_comparison rep) < future_value (sip_details rep) /\
    recommendation rep = "SIP".
Proof. apply negative_rate_recommends_sip; (by vm_compute) || lia. Defined.

End SipExtras.

(** ** portfolio.py: the expense tracker *)

Module BudgetFacts.
Import PyQ PyQFacts Budget.
Import Lqa.
Local Open Scope Q_scope.

Lemma le_false x y : le x y = false <-> y < x.
Proof.
  unfold le. rewrite <- not_true_iff_false, Qle_bool_iff.
  split; [apply Qnot_le_lt | apply Qlt_not_le].
Qed.

Lemma py_min_le_l x y : py_min x y <= x.
Proof.
  unfold py_min. destruct (lt y x) eqn:E; [apply lt_spec in E; lra | lra].
Qed.

Lemma py_min_le_r x y : py_min x y <= y.
Proof.
  unfold py_min. destruct (lt y x) eqn:E; [lra | apply lt_false in E; lra].
Qed.

(** X10. With nothing available (zero or less) the capacity advice is the
    single advice to reduce expenses, and nothing is divided.  Every other
    advice it returns has between one and three entries, and each amount it
    names is positive and at most the available amount; that of the SIP is
    at most 25000. *)
Theorem capacity_within_available monthly_income total_expenses available_amount :
  (available_amount <= 0 ->
   calculate_investment_capacity monthly_income total_expenses available_amount
   = Ok [ mkAdvice "EXPENSE_REDUCTION" "HIGH" None ]) /\
  (forall advice,
     calculate_investment_capacity monthly_income total_expenses available_amount
     = Ok advice ->
     0 < available_amount ->
     (1 <= length advice <= 3)%nat /\
     Forall (fun a => forall x, adv_amount a = Some x -> 0 < x <= available_amount)
            advice /\
     (forall a x, a ∈ advice -> adv_type a = "SIP_RECOMMENDATION" ->
                  adv_amount a = Some x -> x <= 25000)).
Proof.
  unfold calculate_investment_capacity. split.
  - intros Hle. apply le_spec in Hle. by rewrite Hle.
  - intros advice Hadvice Hpos. revert Hadvice.
    assert (le available_amount 0 = false) as -> by (by apply le_false).
    destruct (Qeq_dec monthly_income 0) as [H0 | Hinc];
      [by rewrite q_div_zero |].
    rewrite q_div_nonzero by done. cbn [mbind result_bind].
    intros [= <-].
    set (savings := if lt _ 10 then _ else _).
    assert (adv_amount savings = None) as Hs
      by (subst savings; by repeat case_match).
    assert (adv_type savings <> "SIP_RECOMMENDATION") as Hst
      by (subst savings; by repeat case_match).
    pose proof (py_min_le_l (available_amount * 0.7) 25000) as Hm1.
    pose proof (py_min_le_r (available_amount * 0.7) 25000) as Hm2.
    assert (0 < py_min (available_amount * 0.7) 25000) as Hm0.
    { unfold py_min. case_match; inv_literals; lra. }
    destruct (le 5000 available_amount) eqn:E5;
      destruct (le 10000 available_amount) eqn:E10;
      cbn [app length].
    all: split; [lia |].
    all: split;
      [repeat (apply Forall_cons_2;
               [cbn; rewrite ?Hs; intros x [= <-]; split; inv_literals; lra |]);
       apply Forall_nil_2 |].
    all: intros a x Ha Ht Hx; rewrite !elem_of_cons, elem_of_nil in Ha;
      destruct Ha as [-> | Ha]; [done |];
      repeat (destruct Ha as [-> | Ha];
              [cbn in *; first [discriminate | by injection Hx as <-] |]);
      done.
Qed.

Lemma capacity_within_available_witness :
  calculate_investment_capacity 0 500 (-500) = Ok [ mkAdvice "EXPENSE_REDUCTION" "HIGH" None ] /\
  exists advice,
    calculate_investment_capacity 80000 50000 30000 = Ok advice /\
    (1 <= length advice <= 3)%nat /\
    Forall (fun a => forall x, adv_amount a = Some x -> 0 < x <= 30000) advice /\
    (forall a x, a ∈ advice -> adv_type a = "SIP_RECOMMENDATION" ->
                 adv_amount a = Some x -> x <= 25000).
Proof.
  split.
  - apply (capacity_within_available 0 500 (-500)). by vm_compute.
  - eexists. split; [vm_compute; reflexivity |].
    apply (capacity_within_available 80000 50000 30000);
      [vm_compute; reflexivity | by vm_compute].
Defined.

Lemma sum_values_from (acc : Q) (expenses : list (string * Q)) :
  foldl (fun acc e => acc + e.2) acc expenses == acc + sum_values expenses.
Proof.
  unfold sum_values. revert acc.
  induction expenses as [| e rest IH]; intros acc; simpl; [ring |].
  rewrite (IH (acc + e.2)), (IH (0 + e.2)). ring.
Qed.

Lemma sum_values_nonneg (expenses : list (string * Q)) :
  Forall (fun e => 0 <= e.2) expenses -> 0 <= sum_values expenses.
Proof.
  induction 1 as [| e rest He _ IH]; [by vm_compute |].
  unfold sum_values. simpl. rewrite sum_values_from. lra.
Qed.

Section WithLower.
Variable lower : string -> string.

(** X11. Without an income (zero), for expenses that add up within double
    range: with expenses that are not negative the tracker returns its
    report, with the single advice to reduce expenses and an investment
    percentage of 0; with expenses none of which is positive and that add up
    to less than zero, something is available, the savings rate divides by
    the income, and the tracker fails with the division by zero. *)
Theorem track_expenses_without_income monthly_income (expenses : list (string * Q)) :
  monthly_income == 0 ->
  - inject_Z Doubles.max_double <= sum_values expenses <= inject_Z Doubles.max_double ->
  (Forall (fun e => 0 <= e.2) expenses ->
   exists rep,
     track_expenses lower monthly_income expenses = Ok rep /\
     recommendations rep = [ mkAdvice "EXPENSE_REDUCTION" "HIGH" None ] /\
     investment_percentage rep = 0) /\
  (Forall (fun e => e.2 <= 0) expenses -> sum_values expenses < 0 ->
   track_expenses lower monthly_income expenses = Raise ZeroDivisionError).
Proof.
  intros H0 _. unfold track_expenses, calculate_investment_capacity. split.
  - intros Hall. pose proof (sum_values_nonneg expenses Hall) as Hsum.
    assert (le (monthly_income - sum_values expenses) 0 = true) as ->
      by (apply le_spec; lra).
    cbn [mbind result_bind].
    eexists. split; [reflexivity |]. cbn. split; [done |].
    assert (lt 0 monthly_income = false) as -> by (apply lt_false; lra).
    done.
  - intros _ Hneg.
    assert (le (monthly_income - sum_values expenses) 0 = false) as ->
      by (apply le_false; lra).
    by rewrite q_div_zero.
Qed.

Lemma recommended_bounds k : 5 <= dict_get recommended_ratios k 10 <= 30.
Proof.
  unfold dict_get, recommended_ratios. rewrite !lookup_insert, !lookup_empty.
  repeat case_decide; simpl; lra.
Qed.

(** X12. With an income of zero or less every expense category is reported
    at 0 percent and UNDER, the expense ratio is 0 and no reduction is
    recommended, however large the expenses are. *)
Theorem no_income_no_overspending (expenses : list (string * Q)) monthly_income :
  monthly_income <= 0 ->
  Forall (fun i => percentage i = 0 /\ status i = "UNDER")
         (category_analysis (analyze_expenses lower expenses monthly_income)) /\
  an_recommendations (analyze_expenses lower expenses monthly_income) = [] /\
  expense_ratio (analyze_expenses lower expenses monthly_income) = 0.
Proof.
  intros Hinc. apply lt_false in Hinc.
  unfold analyze_expenses. cbn. rewrite Hinc. split; [| split; [| done]].
  - apply Forall_fmap, Forall_forall. intros e _. unfold category_info. cbn.
    rewrite Hinc. split; [done |].
    pose proof (recommended_bounds (lower e.1)) as Hb.
    assert (lt (dict_get recommended_ratios (lower e.1) 10) 0 = false) as ->
      by (apply lt_false; lra).
    assert (lt 0 (dict_get recommended_ratios (lower e.1) 10 * 0.5) = true) as ->
      by (apply lt_spec; lra).
    done.
  - induction expenses as [| e rest IH]; [done |].
    rewrite fmap_cons. cbn [omap list_omap]. unfold category_info at 1. cbn.
    rewrite Hinc.
    pose proof (recommended_bounds (lower e.1)) as Hb.
    assert (lt (dict_get recommended_ratios (lower e.1) 10) 0 = false) as ->
      by (apply lt_false; lra).
    exact IH.
Qed.

Lemma status_over monthly_income e :
  status (category_info lower monthly_income e) = "OVER" <->
  lt (recommended_percentage (category_info lower monthly_income e))
     (percentage (category_info lower monthly_income e)) = true.
Proof. unfold category_info. cbn. repeat case_match; split; congruence. Qed.

(** X13. The analysis lists the categories in the order of the expenses, and
    recommends a reduction for exactly the categories it reports OVER, in
    that order. *)
Theorem reductions_are_the_over_categories (expenses : list (string * Q)) monthly_income :
  category <$> category_analysis (analyze_expenses lower expenses monthly_income)
  = expenses.*1 /\
  exp_category <$> an_recommendations (analyze_expenses lower expenses monthly_income)
  = category <$> filter (fun i => status i = "OVER")
                        (category_analysis (analyze_expenses lower expenses monthly_income)).
Proof.
  unfold analyze_expenses. cbn. split.
  - induction expenses as [| e rest IH]; [done |]. rewrite !fmap_cons. by rewrite IH.
  - induction expenses as [| e rest IH]; [done |].
    rewrite fmap_cons. cbn [omap list_omap]. rewrite filter_cons.
    pose proof (status_over monthly_income e) as Hover.
    set (i := category_info lower monthly_income e) in *.
    destruct (lt (recommended_percentage i) (percentage i)) eqn:E.
    + rewrite decide_True by (by apply Hover). rewrite !fmap_cons. by rewrite IH.
    + rewrite decide_False by (rewrite Hover; congruence). exact IH.
Qed.

End WithLower.

Lemma track_expenses_without_income_witness :
  (exists rep,
     track_expenses (fun s => s) 0 [("housing", 20000); ("food", 9000)] = Ok rep /\
     recommendations rep = [ mkAdvice "EXPENSE_REDUCTION" "HIGH" None ] /\
     investment_percentage rep = 0) /\
  track_expenses (fun s => s) 0 [("refund", -100)] = Raise ZeroDivisionError.
Proof.
  split.
  - apply (track_expenses_without_income (fun s => s) 0 [("housing", 20000); ("food", 9000)]);
      [reflexivity | split; by vm_compute | repeat constructor; by vm_compute].
  - apply (track_expenses_without_income (fun s => s) 0 [("refund", -100)]);
      [reflexivity | split; by vm_compute | repeat constructor; by vm_compute
      | by vm_compute].
Defined.

Lemma no_income_no_overspending_witness :
  Forall (fun i => percentage i = 0 /\ status i = "UNDER")
         (category_analysis (analyze_expenses (fun s => s) [("housing", 20000)] 0)) /\
  an_recommendations (analyze_expenses (fun s => s) [("housing", 20000)] 0) = [] /\
  expense_ratio (analyze_expenses (fun s => s) [("housing", 20000)] 0) = 0.
Proof. apply no_income_no_overspending. by vm_compute. Defined.

End BudgetFacts.

(** ** dashboard.py: more on the portfolio risk *)

Module RiskFacts.
Import PyQ PyQFacts Dashboard DashboardFacts RiskAnalysis.
Import Lqa.
Local Open Scope Q_scope.

Lemma allocation_of_fold snapshots :
  allocation_of snapshots = foldl (record_share (total_amount snapshots)) ∅ snapshots.
Proof. reflexivity. Qed.

Lemma fold_dom total (m : gmap string Q) snapshots :
  dom (foldl (record_share total) m snapshots) = dom m ∪ asset_types snapshots.
Proof.
  revert m. induction snapshots as [| s rest IH]; intros m.
  - unfold asset_types. simpl. set_solver.
  - simpl. rewrite IH. unfold record_share. rewrite dom_insert_L.
    unfold asset_types. rewrite fmap_cons. set_solver.
Qed.

Lemma allocation_of_dom snapshots : dom (allocation_of snapshots) = asset_types snapshots.
Proof. rewrite allocation_of_fold, fold_dom. set_solver. Qed.

Lemma portfolio_score_steps portfolio snapshots :
  diversification_score (calculate_portfolio_risk portfolio snapshots)
  = diversification_steps (size (asset_types snapshots)).
Proof.
  cbn. rewrite diversification_score_steps.
  by rewrite <- allocation_of_dom, size_dom.
Qed.

(** X14. The diversification score of a portfolio is the step function of
    the number of distinct asset types among its snapshots, whatever their
    amounts: repeated snapshots of one type count once. *)
Theorem diversification_counts_distinct_types portfolio snapshots :
  dom (asset_allocation (calculate_portfolio_risk portfolio snapshots))
  = asset_types snapshots /\
  diversification_score (calculate_portfolio_risk portfolio snapshots)
  = diversification_steps (size (asset_types snapshots)).
Proof.
  split; [apply allocation_of_dom | apply portfolio_score_steps].
Qed.

(** *** The weighted risk score *)

Lemma nearest_proper s t : s == t -> nearest s = nearest t.
Proof.
  intros Hst. unfold nearest. rewrite (Qfloor_comp _ _ Hst).
  set (f := Qfloor t).
  assert (lt (s - inject_Z f) (1 # 2) = lt (t - inject_Z f) (1 # 2)) as ->.
  { destruct (lt (t - inject_Z f) (1 # 2)) eqn:E.
    - apply lt_spec in E. apply lt_spec. lra.
    - apply lt_false in E. apply lt_false. lra. }
  assert (lt (1 # 2) (s - inject_Z f) = lt (1 # 2) (t - inject_Z f)) as ->.
  { destruct (lt (1 # 2) (t - inject_Z f)) eqn:E.
    - apply lt_spec in E. apply lt_spec. lra.
    - apply lt_false in E. apply lt_false. lra. }
  reflexivity.
Qed.

Lemma round2_proper x y : x == y -> round2 x = round2 y.
Proof.
  intros Hxy. unfold round2. f_equal. f_equal. apply nearest_proper. by rewrite Hxy.
Qed.

(** A whole number is its own rounding. *)
Lemma round2_integer n : round2 (inject_Z n) == inject_Z n.
Proof.
  unfold round2.
  assert (inject_Z n * 100 == inject_Z (n * 100)) as Hn
    by (rewrite inject_Z_mult; reflexivity).
  rewrite (nearest_proper _ _ Hn). unfold nearest. rewrite Qfloor_Z.
  assert (lt (inject_Z (n * 100) - inject_Z (n * 100)) (1 # 2) = true) as ->
    by (apply lt_spec; lra).
  rewrite inject_Z_mult. change (inject_Z 100) with 100. field.
Qed.

Lemma weight_bounds k : 1 # 10 <= dict_get risk_weights k (5 # 10) <= 8 # 10.
Proof.
  unfold dict_get, risk_weights. rewrite !lookup_insert, !lookup_empty.
  repeat case_decide; simpl; lra.
Qed.

(** The term line 612 adds for one entry of the allocation. *)
Lemma weighted_risk_list (m : gmap string Q) :
  weighted_risk m =
  foldr (uncurry (fun k v acc => acc + (v / 100) * dict_get risk_weights k (5 # 10) * 100))
        0 (map_to_list m).
Proof. unfold weighted_risk. rewrite map_fold_foldr. reflexivity. Qed.

Lemma allocation_sum_list (m : gmap string Q) :
  allocation_sum m = foldr (uncurry (fun _ v acc => acc + v)) 0 (map_to_list m).
Proof. unfold allocation_sum. rewrite map_fold_foldr. reflexivity. Qed.

(** With percentages that are not negative, the weighted risk lies between 0
    and eight tenths of their sum: no weight is above 0.8. *)
Lemma weighted_risk_bounds (m : gmap string Q) :
  map_Forall (fun _ v => 0 <= v) m ->
  0 <= weighted_risk m /\ weighted_risk m <= (8 # 10) * allocation_sum m.
Proof.
  rewrite map_Forall_to_list, weighted_risk_list, allocation_sum_list.
  induction 1 as [| [k v] l Hv _ IH]; [simpl; lra |].
  cbn [foldr uncurry]. simpl in Hv.
  pose proof (weight_bounds k) as Hw.
  set (w := dict_get risk_weights k (5 # 10)) in *.
  assert (v / 100 * w * 100 == v * w) as -> by field.
  split; nra.
Qed.

Lemma weighted_risk_zero (m : gmap string Q) :
  map_Forall (fun _ v => v == 0) m -> weighted_risk m == 0.
Proof.
  rewrite map_Forall_to_list, weighted_risk_list.
  induction 1 as [| [k v] l Hv _ IH]; [reflexivity |].
  cbn [foldr uncurry]. simpl in Hv. rewrite IH, Hv. field.
Qed.

Lemma plus_proper (z : Q) : Proper (Qeq ==> Qeq) (fun acc => acc + z).
Proof. intros x y Hxy. by rewrite Hxy. Qed.

Lemma allocation_sum_insert_fresh (m : gmap string Q) k v :
  m !! k = None -> allocation_sum (<[k := v]> m) == allocation_sum m + v.
Proof.
  intros Hk. unfold allocation_sum.
  apply (map_fold_insert Qeq (fun _ percentage acc => acc + percentage)); [| | done].
  - intros j z. apply plus_proper.
  - intros j1 j2 z1 z2 y _ _ _. ring.
Qed.

Lemma allocation_sum_lookup (m : gmap string Q) k v :
  m !! k = Some v -> allocation_sum m == allocation_sum (delete k m) + v.
Proof.
  intros Hk. unfold allocation_sum.
  apply (map_fold_delete Qeq (fun _ percentage acc => acc + percentage)); [| | done].
  - intros j z. apply plus_proper.
  - intros j1 j2 z1 z2 y _ _ _. ring.
Qed.

(** Writing an entry adds at most its percentage to the sum: it may replace
    an earlier entry of the same asset type. *)
Lemma allocation_sum_insert_le (m : gmap string Q) k v :
  map_Forall (fun _ x => 0 <= x) m ->
  allocation_sum (<[k := v]> m) <= allocation_sum m + v.
Proof.
  intros Hm. destruct (m !! k) as [old |] eqn:Hk.
  - rewrite <- insert_delete_eq.
    rewrite allocation_sum_insert_fresh by apply lookup_delete_eq.
    rewrite (allocation_sum_lookup m k old Hk).
    pose proof (Hm k old Hk). simpl in *. lra.
  - rewrite allocation_sum_insert_fresh by done. lra.
Qed.

Lemma total_amount_from (a : Q) snapshots :
  foldl (fun acc s => acc + amount s) a snapshots == a + total_amount snapshots.
Proof.
  unfold total_amount. revert a.
  induction snapshots as [| s rest IH]; intros a; simpl; [ring |].
  rewrite IH, (IH (0 + amount s)). ring.
Qed.

Lemma total_amount_cons s rest : total_amount (s :: rest) == amount s + total_amount rest.
Proof. unfold total_amount at 1. simpl. rewrite total_amount_from. ring. Qed.

Lemma total_amount_nonneg snapshots :
  Forall (fun s => 0 <= amount s) snapshots -> 0 <= total_amount snapshots.
Proof.
  induction 1 as [| s rest Hs _ IH]; [by vm_compute |].
  rewrite total_amount_cons. lra.
Qed.

Lemma fold_sum total (m : gmap string Q) snapshots :
  0 < total ->
  Forall (fun s => 0 <= amount s) snapshots ->
  map_Forall (fun _ x => 0 <= x) m ->
  map_Forall (fun _ x => 0 <= x) (foldl (record_share total) m snapshots) /\
  allocation_sum (foldl (record_share total) m snapshots)
  <= allocation_sum m + total_amount snapshots / total * 100.
Proof.
  intros Ht Hs. revert m. induction Hs as [| s rest Hs _ IH]; intros m Hm.
  - simpl. split; [done |].
    assert (total_amount [] / total * 100 == 0) as -> by (by vm_compute). lra.
  - simpl.
    assert (0 <= share total s) as Hshare.
    { unfold share. apply lt_spec in Ht as Hb. rewrite Hb.
      apply Qmult_le_0_compat; [| lra]. apply Qle_shift_div_l; lra. }
    assert (map_Forall (fun _ x => 0 <= x) (record_share total m s)) as Hm'
      by (by apply map_Forall_insert_2).
    destruct (IH _ Hm') as [Hall Hle]. split; [exact Hall |].
    pose proof (allocation_sum_insert_le m (asset_type s) (share total s) Hm) as Hins.
    fold (record_share total m s) in Hins.
    assert (total_amount (s :: rest) / total * 100
            == share total s + total_amount rest / total * 100) as ->.
    { rewrite total_amount_cons. unfold share. apply lt_spec in Ht as Hb. rewrite Hb.
      field. lra. }
    lra.
Qed.

Lemma fold_zero total (m : gmap string Q) snapshots :
  total <= 0 ->
  map_Forall (fun _ x => x = 0) m ->
  map_Forall (fun _ x => x = 0) (foldl (record_share total) m snapshots).
Proof.
  intros Ht. apply lt_false in Ht.
  revert m. induction snapshots as [| s rest IH]; intros m Hm; [done |].
  simpl. apply IH. apply map_Forall_insert_2; [| done].
  unfold share. by rewrite Ht.
Qed.

(** The weighted risk of holdings that are not negative lies between 0 and
    80, the weight of stocks, the riskiest class. *)
Lemma weighted_risk_range snapshots :
  Forall (fun s => 0 <= amount s) snapshots ->
  0 <= weighted_risk (allocation_of snapshots) <= 80.
Proof.
  intros Hs. rewrite allocation_of_fold.
  pose proof (total_amount_nonneg snapshots Hs) as Hnn.
  destruct (Qlt_le_dec 0 (total_amount snapshots)) as [Ht | Ht].
  - destruct (fold_sum (total_amount snapshots) ∅ snapshots Ht Hs) as [Hall Hle];
      [apply map_Forall_empty |].
    assert (allocation_sum (foldl (record_share (total_amount snapshots)) ∅ snapshots)
            <= 100) as Hsum.
    { eapply Qle_trans; [exact Hle |].
      assert (allocation_sum (∅ : gmap string Q) == 0) as -> by reflexivity.
      assert (total_amount snapshots / total_amount snapshots * 100 == 100) as ->
        by (field; lra).
      lra. }
    destruct (weighted_risk_bounds _ Hall) as [Hlo Hhi]. lra.
  - pose proof (fold_zero _ ∅ snapshots Ht (map_Forall_empty _)) as Hall.
    set (m := foldl _ _ _) in *.
    assert (weighted_risk m == 0) as ->; [| lra].
    apply weighted_risk_zero. intros k v Hk. by rewrite (Hall k v Hk).
Qed.

(** X15. For a portfolio of holdings that are not negative, the risk score
    reported lies between 0 and 80 (the weight of stocks, the riskiest
    class), and the volatility estimate between 0 and 24. *)
Theorem risk_score_bounds portfolio snapshots :
  Forall (fun s => 0 <= amount s) snapshots ->
  0 <= risk_score (calculate_portfolio_risk portfolio snapshots) <= 80 /\
  0 <= volatility_estimate (calculate_portfolio_risk portfolio snapshots) <= 24.
Proof.
  intros Hs. cbn. destruct (weighted_risk_range snapshots Hs) as [Hlo Hhi].
  set (w := weighted_risk _) in *.
  repeat split.
  - rewrite <- (round2_integer 0). apply round2_mono. exact Hlo.
  - rewrite <- (round2_integer 80). apply round2_mono. exact Hhi.
  - rewrite <- (round2_integer 0). apply round2_mono. change (inject_Z 0) with 0. lra.
  - rewrite <- (round2_integer 24). apply round2_mono. change (inject_Z 24) with 24. lra.
Qed.

Lemma risk_score_bounds_witness :
  0 <= risk_score
    (calculate_portfolio_risk (mkPlan 1 "Core")
       [mkSnapshot "stocks" 700; mkSnapshot "gold" 300; mkSnapshot "stocks" 100]) <= 80 /\
  0 <= volatility_estimate
    (calculate_portfolio_risk (mkPlan 1 "Core")
       [mkSnapshot "stocks" 700; mkSnapshot "gold" 300; mkSnapshot "stocks" 100]) <= 24.
Proof.
  apply risk_score_bounds. repeat constructor; by vm_compute.
Defined.

Lemma total_amount_nonpos snapshots :
  Forall (fun s => amount s <= 0) snapshots -> total_amount snapshots <= 0.
Proof.
  induction 1 as [| s rest Hs _ IH]; [by vm_compute |].
  rewrite total_amount_cons. lra.
Qed.

(** X16. When no holding of a portfolio is positive, every asset type is
    given 0 percent, and the risk score is 0, the risk level LOW and the
    volatility estimate 0, whatever the holdings are. *)
Theorem no_value_no_risk portfolio snapshots :
  Forall (fun s => amount s <= 0) snapshots ->
  map_Forall (fun _ v => v = 0)
             (asset_allocation (calculate_portfolio_risk portfolio snapshots)) /\
  risk_score (calculate_portfolio_risk portfolio snapshots) == 0 /\
  risk_level (calculate_portfolio_risk portfolio snapshots) = "LOW" /\
  volatility_estimate (calculate_portfolio_risk portfolio snapshots) == 0.
Proof.
  intros Hs. pose proof (total_amount_nonpos snapshots Hs) as Ht.
  cbn. rewrite allocation_of_fold.
  pose proof (fold_zero _ ∅ snapshots Ht (map_Forall_empty _)) as Hall.
  set (m := foldl _ _ _) in *.
  assert (weighted_risk m == 0) as Hw.
  { apply weighted_risk_zero. intros k v Hk. by rewrite (Hall k v Hk). }
  split; [exact Hall |].
  assert (lt 70 (weighted_risk m) = false) as -> by (apply lt_false; lra).
  assert (lt 30 (weighted_risk m) = false) as -> by (apply lt_false; lra).
  split; [| split; [done |]].
  - rewrite (round2_proper _ 0 Hw). by vm_compute.
  - rewrite (round2_proper _ 0); [by vm_compute | rewrite Hw; reflexivity].
Qed.

Lemma no_value_no_risk_witness :
  map_Forall (fun _ v => v = 0)
    (asset_allocation (calculate_portfolio_risk (mkPlan 2 "Closed")
       [mkSnapshot "stocks" 0; mkSnapshot "loan" (-500)])) /\
  risk_score (calculate_portfolio_risk (mkPlan 2 "Closed")
       [mkSnapshot "stocks" 0; mkSnapshot "loan" (-500)]) == 0 /\
  risk_level (calculate_portfolio_risk (mkPlan 2 "Closed")
       [mkSnapshot "stocks" 0; mkSnapshot "loan" (-500)]) = "LOW" /\
  volatility_estimate (calculate_portfolio_risk (mkPlan 2 "Closed")
       [mkSnapshot "stocks" 0; mkSnapshot "loan" (-500)]) == 0.
Proof. apply no_value_no_risk. repeat constructor; by vm_compute. Defined.

(** *** The risk advice *)

Lemma steps_below_50 n : (diversification_steps n <? 50)%Z = bool_decide (n < 3)%nat.
Proof.
  destruct n as [| [| [| [| [| n]]]]];
    first [ rewrite bool_decide_eq_true_2 by lia; reflexivity
          | rewrite bool_decide_eq_false_2 by lia; reflexivity ].
Qed.

(** The DIVERSIFY entries, one per report that is not spread enough. *)
Lemma diversify_entries (portfolio_risks : list RiskReport) :
  let entries :=
    omap (fun portfolio_risk =>
            if (diversification_score portfolio_risk <? 50)%Z
            then Some {| ra_type := "DIVERSIFY";
                         ra_title := "Diversify " +:+ portfolio_name portfolio_risk;
                         ra_priority := "MEDIUM" |}
            else None)
         portfolio_risks in
  Forall (fun a => ra_type a = "DIVERSIFY") entries /\
  ra_title <$> entries
  = (fun r => "Diversify " +:+ portfolio_name r)
      <$> filter (fun r => (diversification_score r < 50)%Z) portfolio_risks.
Proof.
  induction portfolio_risks as [| r rest [IH1 IH2]]; [by split |].
  cbn zeta in *. cbn [omap list_omap]. rewrite filter_cons.
  destruct (decide (diversification_score r < 50)%Z) as [Hlt | Hge].
  - assert ((diversification_score r <? 50)%Z = true) as -> by (by apply Z.ltb_lt).
    split; [by constructor |]. rewrite !fmap_cons. f_equal. exact IH2.
  - assert ((diversification_score r <? 50)%Z = false) as -> by (by apply Z.ltb_ge; lia).
    by split.
Qed.

(** X18. The risk advice on the reports of a user's portfolios: there is one
    DIVERSIFY entry for each report whose diversification score is below 50,
    in the order of the reports and titled by the portfolio, and the advice
    to reduce risk and the advice to seek higher returns are never given
    together.  A report of [calculate_portfolio_risk] has a score below 50
    exactly when its snapshots name fewer than three distinct asset types. *)
Theorem risk_advice (overall : OverallRisk) (portfolio_risks : list RiskReport) :
  let advice := generate_risk_recommendations overall portfolio_risks in
  ra_title <$> filter (fun a => ra_type a = "DIVERSIFY") advice
  = (fun r => "Diversify " +:+ portfolio_name r)
      <$> filter (fun r => (diversification_score r < 50)%Z) portfolio_risks /\
  ~ (exists a b, a ∈ advice /\ b ∈ advice /\
                 ra_type a = "REDUCE_RISK" /\ ra_type b = "INCREASE_RETURNS") /\
  (forall portfolio snapshots,
     (diversification_score (calculate_portfolio_risk portfolio snapshots) < 50)%Z
     <-> (size (asset_types snapshots) < 3)%nat).
Proof.
  cbn zeta. unfold generate_risk_recommendations.
  destruct (diversify_entries portfolio_risks) as [Hall Htitles].
  cbn zeta in Hall, Htitles.
  set (entries := omap _ _) in *.
  split; [| split].
  - rewrite !filter_app.
    assert (filter (fun a => ra_type a = "DIVERSIFY") entries = entries) as ->.
    { clear Htitles. induction Hall as [| a l Ha _ IH]; [done |].
      rewrite filter_cons, decide_True by done. by rewrite IH. }
    by repeat case_match.
  - intros (a & b & Ha & Hb & Hta & Htb).
    rewrite Forall_forall in Hall.
    rewrite !elem_of_app in Ha, Hb.
    assert (lt 70 (or_score overall) = true) as H70.
    { destruct (lt 70 (or_score overall)); [done |].
      destruct Ha as [Ha | [Ha | Ha]].
      - by apply elem_of_nil in Ha.
      - destruct (lt (or_score overall) 30);
          [apply list_elem_of_singleton in Ha; by subst | by apply elem_of_nil in Ha].
      - apply Hall in Ha. congruence. }
    assert (lt (or_score overall) 30 = true) as H30.
    { destruct (lt (or_score overall) 30); [done |].
      destruct Hb as [Hb | [Hb | Hb]].
      - rewrite H70 in Hb. apply list_elem_of_singleton in Hb. by subst.
      - by apply elem_of_nil in Hb.
      - apply Hall in Hb. congruence. }
    apply lt_spec in H70, H30. lra.
  - intros portfolio snapshots.
    rewrite (portfolio_score_steps portfolio snapshots).
    rewrite <- Z.ltb_lt, steps_below_50. apply bool_decide_eq_true.
Qed.

Lemma risk_advice_witness :
  let reports :=
    [ calculate_portfolio_risk (mkPlan 1 "Core")
        [mkSnapshot "stocks" 700; mkSnapshot "gold" 300];
      calculate_portfolio_risk (mkPlan 2 "Wide")
        [mkSnapshot "stocks" 100; mkSnapshot "gold" 100; mkSnapshot "ppf" 100] ] in
  let advice := generate_risk_recommendations (mkOverallRisk 75 "HIGH") reports in
  ra_title <$> filter (fun a => ra_type a = "DIVERSIFY") advice = ["Diversify Core"] /\
  ~ (exists a b, a ∈ advice /\ b ∈ advice /\
                 ra_type a = "REDUCE_RISK" /\ ra_type b = "INCREASE_RETURNS").
Proof.
  intros reports advice.
  destruct (risk_advice (mkOverallRisk 75 "HIGH") reports) as (H1 & H2 & _).
  split; [exact H1 | exact H2].
Defined.

End RiskFacts.

(** ** investments.py: more on the financial health score *)

Module HealthFacts.
Import PyQ PyQFacts Investments HealthTerms.
Local Open Scope Z_scope.

Lemma credit_adds points cap factor label st :
  0 <= points <= cap -> adds_up_to cap factor st (credit points factor label st).
Proof.
  intros Hp. unfold adds_up_to, credit. simpl. split; [lia |].
  intros k Hk. by rewrite lookup_insert_ne.
Qed.

Lemma skip_adds cap factor st : 0 <= cap -> adds_up_to cap factor st st.
Proof. intros Hc. unfold adds_up_to. split; [lia | done]. Qed.

Ltac step_cases :=
  repeat case_match; first [ apply skip_adds; lia | apply credit_adds; lia ].

Lemma income_factor_adds user st : adds_up_to 20 "income" st (income_factor user st).
Proof. unfold income_factor. step_cases. Qed.

Lemma expense_ratio_factor_adds user st :
  adds_up_to 20 "expense_ratio" st (expense_ratio_factor user st).
Proof. unfold expense_ratio_factor. step_cases. Qed.

Lemma diversification_factor_adds asset_snapshot st :
  adds_up_to 30 "diversification" st (diversification_factor asset_snapshot st).
Proof. unfold diversification_factor. step_cases. Qed.

Lemma debt_factor_adds user asset_snapshot st :
  adds_up_to 20 "debt" st (debt_factor user asset_snapshot st).
Proof. unfold debt_factor. step_cases. Qed.

Lemma goal_factor_adds goals_count st :
  adds_up_to 10 "goal_planning" st (goal_factor goals_count st).
Proof.
  unfold goal_factor.
  repeat case_decide; try (apply credit_adds; lia).
  unfold adds_up_to. simpl. split; [lia |]. intros k Hk. by rewrite lookup_insert_ne.
Qed.

(** The tally after the five steps. *)
Lemma final_tally user asset_snapshot goals_count :
  exists st1 st2 st3 st4 st5,
    adds_up_to 20 "income" (0, ∅) st1 /\
    adds_up_to 20 "expense_ratio" st1 st2 /\
    adds_up_to 30 "diversification" st2 st3 /\
    st4 = debt_factor user asset_snapshot st3 /\
    adds_up_to 20 "debt" st3 st4 /\
    st5 = goal_factor goals_count st4 /\
    adds_up_to 10 "goal_planning" st4 st5 /\
    calculate_financial_health_score user asset_snapshot goals_count =
    {| score := Z.min st5.1 100;
       rating := overall_rating st5.1;
       factors := st5.2;
       recommendations := get_health_recommendations st5.1 st5.2 |}.
Proof.
  eexists _, _, _, _, _.
  split; [apply (income_factor_adds user) |].
  split; [apply (expense_ratio_factor_adds user) |].
  split; [apply (diversification_factor_adds asset_snapshot) |].
  split; [reflexivity |].
  split; [apply debt_factor_adds |].
  split; [reflexivity |].
  split; [apply goal_factor_adds |].
  reflexivity.
Qed.

Lemma raw_score_range user asset_snapshot goals_count :
  exists raw,
    0 <= raw <= 100 /\
    calculate_financial_health_score user asset_snapshot goals_count =
    {| score := raw;
       rating := overall_rating raw;
       factors := factors (calculate_financial_health_score user asset_snapshot goals_count);
       recommendations :=
         get_health_recommendations raw
           (factors (calculate_financial_health_score user asset_snapshot goals_count)) |}.
Proof.
  destruct (final_tally user asset_snapshot goals_count)
    as (st1 & st2 & st3 & st4 & st5 & [H1 _] & [H2 _] & [H3 _] & _ & [H4 _] & _ & [H5 _] & ->).
  simpl in H1. exists st5.1. split; [lia |].
  cbn [factors]. by rewrite Z.min_l by lia.
Qed.

(** X19. The health score is between 0 and 100 for every user, snapshot and
    number of goals, and the cap at 100 never cuts anything off: the five
    factors add up to at most 20 + 20 + 30 + 20 + 10, so the rating is the
    rating of the score that is returned. *)
Theorem health_score_range user asset_snapshot goals_count :
  0 <= score (calculate_financial_health_score user asset_snapshot goals_count) <= 100 /\
  rating (calculate_financial_health_score user asset_snapshot goals_count)
  = overall_rating (score (calculate_financial_health_score user asset_snapshot goals_count)).
Proof.
  destruct (raw_score_range user asset_snapshot goals_count) as (raw & Hraw & ->).
  cbn [score rating]. split; [lia | done].
Qed.

Lemma recommendations_elem score factors r :
  r ∈ get_health_recommendations score factors <->
  (r = "Reduce monthly expenses to improve savings rate" /\
   average_or_poor (factors !! "expense_ratio") = true) \/
  (r = "Diversify investments across different asset classes" /\
   average_or_poor (factors !! "diversification") = true) \/
  (r = "Focus on reducing debt burden" /\
   average_or_poor (factors !! "debt") = true) \/
  (r = "Set clear financial goals with timelines" /\
   average_or_poor (factors !! "goal_planning") = true) \/
  (r = "Consider consulting a financial advisor" /\ score < 70).
Proof.
  unfold get_health_recommendations. rewrite !elem_of_app.
  destruct (average_or_poor (factors !! "expense_ratio"));
    destruct (average_or_poor (factors !! "diversification"));
    destruct (average_or_poor (factors !! "debt"));
    destruct (average_or_poor (factors !! "goal_planning"));
    destruct (Z.ltb_spec score 70);
    rewrite ?elem_of_nil, ?list_elem_of_singleton;
    intuition (try discriminate; try lia).
Qed.

Lemma overall_rating_good score :
  score < 70 <-> overall_rating score <> "Excellent" /\ overall_rating score <> "Good".
Proof.
  unfold overall_rating.
  destruct (Z.leb_spec 85 score); [split; [lia | intros [? _]; done] |].
  destruct (Z.leb_spec 70 score); [split; [lia | intros [_ ?]; done] |].
  split; [| lia]. intros _. by repeat case_match.
Qed.

(** X20. The health report recommends consulting a financial advisor exactly
    when the score is below 70, that is, exactly when the rating is neither
    Excellent nor Good. *)
Theorem advisor_below_good user asset_snapshot goals_count :
  let report := calculate_financial_health_score user asset_snapshot goals_count in
  ("Consider consulting a financial advisor" ∈ recommendations report
   <-> score report < 70) /\
  (score report < 70 <-> rating report <> "Excellent" /\ rating report <> "Good").
Proof.
  cbn zeta.
  destruct (raw_score_range user asset_snapshot goals_count) as (raw & Hraw & ->).
  cbn [score rating recommendations].
  split; [| apply overall_rating_good].
  rewrite recommendations_elem. intuition (try discriminate).
Qed.

Lemma advisor_below_good_witness :
  "Consider consulting a financial advisor"
    ∈ recommendations (calculate_financial_health_score (mkUser 1 None None) None 0).
Proof.
  destruct (advisor_below_good (mkUser 1 None None) None 0) as [[_ H] _].
  apply H. by vm_compute.
Defined.

Lemma goal_rating goals_count st :
  average_or_poor ((goal_factor goals_count st).2 !! "goal_planning")
  = bool_decide (goals_count < 2)%nat.
Proof.
  unfold goal_factor, credit.
  repeat case_decide; simpl; rewrite lookup_insert_eq;
    first [ lia | by vm_compute ].
Qed.

(** X21. The health report recommends setting financial goals exactly when
    the user has fewer than two of them. *)
Theorem goal_advice_below_two_goals user asset_snapshot goals_count :
  "Set clear financial goals with timelines"
    ∈ recommendations (calculate_financial_health_score user asset_snapshot goals_count)
  <-> (goals_count < 2)%nat.
Proof.
  destruct (final_tally user asset_snapshot goals_count)
    as (st1 & st2 & st3 & st4 & st5 & _ & _ & _ & _ & _ & -> & _ & ->).
  cbn [recommendations]. rewrite recommendations_elem, goal_rating.
  rewrite bool_decide_eq_true. intuition (try discriminate).
Qed.

Lemma goal_advice_below_two_goals_witness :
  "Set clear financial goals with timelines"
    ∈ recommendations (calculate_financial_health_score (mkUser 1 None None) None 1).
Proof. apply goal_advice_below_two_goals. lia. Defined.

(** X22. For an income column below [2^51] in magnitude and a liabilities
    column of 64 bits, the health report recommends reducing the debt exactly
    when liabilities and an income are on record and the ratio of twelve
    times the liabilities to the monthly income exceeds 4. *)
Theorem debt_advice_above_four user asset_snapshot goals_count :
  (Z.abs (val (monthly_income user)) < Doubles.max_divisor)%Z ->
  (forall a, asset_snapshot = Some a -> (Z.abs (val (liabilities a)) <= 2 ^ 63)%Z) ->
  "Focus on reducing debt burden"
    ∈ recommendations (calculate_financial_health_score user asset_snapshot goals_count)
  <-> exists a,
        asset_snapshot = Some a /\
        truthy (liabilities a) = true /\ truthy (monthly_income user) = true /\
        (4 < debt_to_income user a)%Q.
Proof.
  intros _ _.
  destruct (final_tally user asset_snapshot goals_count)
    as (st1 & st2 & st3 & st4 & st5 & [_ K1] & [_ K2] & [_ K3] & E4 & _ & E5 & [_ K5] & ->).
  cbn [recommendations]. rewrite recommendations_elem.
  assert (st3.2 !! "debt" = None) as Hnone
    by (rewrite (K3 "debt"), (K2 "debt"), (K1 "debt") by done; apply lookup_empty).
  rewrite (K5 "debt") by done.
  assert (average_or_poor (st4.2 !! "debt") = true <->
          exists a, asset_snapshot = Some a /\
                    truthy (liabilities a) = true /\ truthy (monthly_income user) = true /\
                    (4 < debt_to_income user a)%Q) as Hdebt.
  { subst st4. unfold debt_factor, debt_to_income.
    destruct asset_snapshot as [a |].
    - destruct (truthy (liabilities a)) eqn:El.
      + destruct (truthy (monthly_income user)) eqn:Ei.
        * set (dti := (inject_Z _ / inject_Z _)%Q).
          destruct (le dti 2) eqn:E2.
          { unfold credit. simpl. rewrite lookup_insert_eq. apply le_spec in E2.
            split; [by vm_compute |]. intros (a' & [= <-] & _ & _ & H). change (4 < dti)%Q in H. Lqa.lra. }
          destruct (le dti 4) eqn:E4.
          { unfold credit. simpl. rewrite lookup_insert_eq. apply le_spec in E4.
            split; [by vm_compute |]. intros (a' & [= <-] & _ & _ & H). change (4 < dti)%Q in H. Lqa.lra. }
          assert (4 < dti)%Q as Hgt.
          { apply Qnot_le_lt. intros H. apply le_spec in H. congruence. }
          split; [intros _; by exists a |]. intros _.
          destruct (le dti 6); unfold credit; simpl; rewrite lookup_insert_eq;
            by vm_compute.
        * rewrite Hnone. split; [by vm_compute |].
          intros (a' & [= <-] & _ & ? & _). congruence.
      + unfold credit. simpl. rewrite lookup_insert_eq.
        split; [by vm_compute |]. intros (a' & [= <-] & ? & _). congruence.
    - unfold credit. simpl. rewrite lookup_insert_eq.
      split; [by vm_compute |]. intros (a' & ? & _). discriminate. }
  rewrite Hdebt. intuition (try discriminate).
Qed.

Lemma debt_advice_above_four_witness :
  "Focus on reducing debt burden"
    ∈ recommendations
        (calculate_financial_health_score (mkUser 1 (Some 50000) (Some 20000))
           (Some (mkAssetSnapshot 1000 0 0 0 0 0 (Some 30000))) 2).
Proof.
  destruct (debt_advice_above_four (mkUser 1 (Some 50000) (Some 20000))
              (Some (mkAssetSnapshot 1000 0 0 0 0 0 (Some 30000))) 2) as [_ H];
    [by vm_compute | intros a [= <-]; by vm_compute |].
  apply H. exists (mkAssetSnapshot 1000 0 0 0 0 0 (Some 30000)). by vm_compute.
Defined.

End HealthFacts.

(** ** investments.py: the default portfolio templates *)

Module TemplateFacts.
Import Templates.
Local Open Scope Z_scope.

(** X23. Whatever the user profile holds, the default recommendations are
    two or three portfolios, each with an allocation that adds up to exactly
    100 and three rationale lines; a missing or unknown risk profile gets the
    three MODERATE portfolios. *)
Theorem default_portfolios_are_complete (user_profile : gmap string string) :
  (2 <= length (get_default_recommendations user_profile) <= 3)%nat /\
  Forall (fun t => allocation_total (allocation t) = 100 /\ length (rationale t) = 3%nat)
         (get_default_recommendations user_profile) /\
  (dict_get user_profile "risk_profile" "MODERATE" <> "CONSERVATIVE" ->
   dict_get user_profile "risk_profile" "MODERATE" <> "GROWTH" ->
   name <$> get_default_recommendations user_profile
   = ["Recommended"; "Conservative"; "Growth"]).
Proof.
  unfold get_default_recommendations, default_portfolios.
  repeat case_decide.
  all: split; [simpl; lia |].
  all: split; [repeat constructor; by vm_compute |].
  all: intros; done.
Qed.

Lemma default_portfolios_are_complete_witness :
  name <$> get_default_recommendations (<["risk_profile" := "BALANCED"]> ∅)
  = ["Recommended"; "Conservative"; "Growth"].
Proof.
  apply (default_portfolios_are_complete (<["risk_profile" := "BALANCED"]> ∅));
    by vm_compute.
Defined.

End TemplateFacts.

(** ** ai_services.py: the risk assessment *)

Module AssessmentFacts.
Import PyQ RiskAssessment AssessmentTerms.
Local Open Scope Z_scope.

Lemma raises_none n st : raises n st st.
Proof. exists []. rewrite app_nil_r. simpl. repeat split; lia. Qed.

Lemma raises_one n points factor st :
  (1 <= n)%nat -> 5 <= points <= 25 -> raises n st (raise_by points factor st).
Proof. intros Hn Hp. exists [factor]. simpl. repeat split; lia. Qed.

Lemma raises_trans n1 n2 st1 st2 st3 :
  raises n1 st1 st2 -> raises n2 st2 st3 -> raises (n1 + n2) st1 st3.
Proof.
  intros (e1 & E1 & L1 & B1) (e2 & E2 & L2 & B2).
  exists (e1 ++ e2). rewrite E2, E1, <- app_assoc, length_app.
  repeat split; lia.
Qed.

Lemma zone_risk_raises zone st : raises 2 st (zone_risk zone st).
Proof.
  unfold zone_risk. destruct zone as [z |]; [| apply raises_none].
  apply (raises_trans 1 1 st
           (if decide (confidence z = "LOW")
            then raise_by 20 "Low confidence in zone outlook" st
            else if decide (confidence z = "MEDIUM")
                 then raise_by 10 "Moderate confidence in zone performance" st
                 else st)).
  - repeat case_decide; first [apply raises_none | apply raises_one; lia].
  - repeat case_decide; first [apply raises_none | apply raises_one; lia].
Qed.

Lemma type_risk_raises investment_type st : raises 1 st (type_risk investment_type st).
Proof.
  unfold type_risk. repeat case_decide; first [apply raises_none | apply raises_one; lia].
Qed.

Lemma horizon_risk_raises time_horizon st : raises 1 st (horizon_risk time_horizon st).
Proof.
  unfold horizon_risk. repeat case_match; first [apply raises_none | apply raises_one; lia].
Qed.

Lemma amount_risk_raises amount st : raises 1 st (amount_risk amount st).
Proof.
  unfold amount_risk. case_match; first [apply raises_none | apply raises_one; lia].
Qed.

Lemma profile_risk_raises user_profile investment_type st :
  raises 1 st (profile_risk user_profile investment_type st).
Proof.
  unfold profile_risk. repeat case_decide; first [apply raises_none | apply raises_one; lia].
Qed.

Lemma raw_assessment_raises investment_type amount zone time_horizon user_profile :
  raises 6 (0, [])
    (raw_assessment investment_type amount zone time_horizon user_profile).
Proof.
  unfold raw_assessment.
  eapply (raises_trans 5 1); [| apply profile_risk_raises].
  eapply (raises_trans 4 1); [| apply amount_risk_raises].
  eapply (raises_trans 3 1); [| apply horizon_risk_raises].
  eapply (raises_trans 2 1); [| apply type_risk_raises].
  apply zone_risk_raises.
Qed.

(** X24. The assessed risk score is between 0 and 100; there are at most six
    risk factors, each worth between 5 and 25 points, so the score is 0
    exactly when no risk factor is reported. *)
Theorem risk_score_and_factors investment_type amount zone time_horizon user_profile :
  let a := perform_risk_assessment investment_type amount zone time_horizon user_profile in
  0 <= risk_score a <= 100 /\
  (length (risk_factors a) <= 6)%nat /\
  5 * Z.of_nat (length (risk_factors a)) <= risk_score a
    <= 25 * Z.of_nat (length (risk_factors a)) /\
  (risk_score a = 0 <-> risk_factors a = []).
Proof.
  cbn zeta. unfold perform_risk_assessment. cbn [risk_score risk_factors].
  destruct (raw_assessment_raises investment_type amount zone time_horizon user_profile)
    as (extra & E & L & B).
  rewrite E. simpl in *. repeat split; try lia.
  - intros H0. destruct extra; [done | simpl in *; lia].
  - intros ->. simpl in *. lia.
Qed.

Lemma risk_score_and_factors_witness :
  risk_factors (perform_risk_assessment "sip" 100000 None 60 ∅) = [].
Proof.
  apply (risk_score_and_factors "sip" 100000 None 60 ∅). by vm_compute.
Defined.

(** X25. The risk level is the tier of the score that is returned (LOW up to
    30, MEDIUM up to 60, HIGH above), the cap at 100 notwithstanding.  A HIGH
    level always comes with the three general mitigation strategies, and a
    LOW level with none of them: then the only possible strategy is the REIT
    hint for real estate above 2000000. *)
Theorem risk_level_and_mitigation investment_type amount zone time_horizon user_profile :
  let a := perform_risk_assessment investment_type amount zone time_horizon user_profile in
  (risk_level a = "LOW" <-> risk_score a <= 30) /\
  (risk_level a = "MEDIUM" <-> 30 < risk_score a <= 60) /\
  (risk_level a = "HIGH" <-> 60 < risk_score a) /\
  (risk_level a = "HIGH" -> take 3 (mitigation_strategies a) = general_strategies) /\
  (risk_level a = "LOW" ->
   mitigation_strategies a = [] \/
   mitigation_strategies a = ["Consider REITs for better liquidity and diversification"]).
Proof.
  cbn zeta. unfold perform_risk_assessment.
  cbn [risk_score risk_level mitigation_strategies].
  set (raw := (raw_assessment _ _ _ _ _).1).
  destruct (Z.leb_spec raw 30) as [H30 | H30];
    [| destruct (Z.leb_spec raw 60) as [H60 | H60]];
    destruct (Z.ltb_spec 50 raw) as [H50 | H50]; try lia.
  all: repeat split; try (intros; lia); try discriminate; try done.
  all: try (intros _; repeat case_match; auto).
Qed.

Lemma risk_level_and_mitigation_witness :
  take 3 (mitigation_strategies
            (perform_risk_assessment "stocks" 6000000
               (Some (mkZone 9 "Ring Road" "LOW" "LOW")) 12
               (<["risk_profile" := "CONSERVATIVE"]> ∅)))
  = general_strategies.
Proof.
  apply (risk_level_and_mitigation "stocks" 6000000
           (Some (mkZone 9 "Ring Road" "LOW" "LOW")) 12
           (<["risk_profile" := "CONSERVATIVE"]> ∅)).
  by vm_compute.
Defined.

End AssessmentFacts.

(** ** zones.py: more on the zone ROI *)

Module ZoneExtras.
Import PyQ PyQFacts Zones ZonesFacts SpecTerms RiskFacts.
Import Lqa.
Local Open Scope Q_scope.

(** The record the zone ROI of a non-zero amount returns, field by field. *)
Lemma calculate_roi_for_zone_value zone investment_amount investment_type time_horizon :
  investment_amount <> 0%Z ->
  calculate_roi_for_zone zone investment_amount investment_type time_horizon =
  let rate := adjusted_rate zone investment_type in
  let a := inject_Z investment_amount in
  let value r := a * (1 + r / 100 / 12) ^ time_horizon in
  Ok {| roi_zone_id := zone_id zone;
        roi_zone_name := zone_name zone;
        investment_amount := investment_amount;
        investment_type := investment_type;
        time_horizon_months := time_horizon;
        base_rate_percent := round2 rate;
        future_value := round2 (value rate);
        total_returns := round2 (value rate - a);
        roi_percentage := round2 ((value rate - a) / a * 100);
        optimistic :=
          {| rate_percent := round2 (rate * (12 # 10));
             st_future_value := round2 (value (rate * (12 # 10)));
             st_roi_percentage := round2 ((value (rate * (12 # 10)) - a) / a * 100) |};
        pessimistic :=
          {| rate_percent := round2 (rate * (7 # 10));
             st_future_value := round2 (value (rate * (7 # 10)));
             st_roi_percentage := round2 ((value (rate * (7 # 10)) - a) / a * 100) |} |}.
Proof.
  intros Ha. unfold calculate_roi_for_zone.
  pose proof (adjusted_rate_bounds zone investment_type) as Hb.
  rewrite !compound_returns by qlra. cbn [mbind result_bind].
  assert (~ inject_Z investment_amount == 0) as Ha'.
  { intros H. apply Ha. by apply (inject_Z_injective _ 0%Z). }
  rewrite !q_div_nonzero by done. reflexivity.
Qed.

(** X26. A zone whose outlook is none of HIGH, MODERATE and LOW is rated as
    MODERATE, and a zone whose confidence is none of HIGH, MEDIUM and LOW as
    MEDIUM: the rate is that of the same zone with the default in place. *)
Theorem unknown_outlook_and_confidence zone investment_type :
  (outlook zone <> "HIGH" -> outlook zone <> "MODERATE" -> outlook zone <> "LOW" ->
   adjusted_rate zone investment_type
   = adjusted_rate (mkZone (zone_id zone) (zone_name zone) "MODERATE" (confidence zone))
                   investment_type) /\
  (confidence zone <> "HIGH" -> confidence zone <> "MEDIUM" -> confidence zone <> "LOW" ->
   adjusted_rate zone investment_type
   = adjusted_rate (mkZone (zone_id zone) (zone_name zone) (outlook zone) "MEDIUM")
                   investment_type).
Proof.
  unfold adjusted_rate. cbn [outlook confidence]. split.
  - intros H1 H2 H3. rewrite !outlook_row_cases.
    rewrite !decide_False by done. reflexivity.
  - intros H1 H2 H3. rewrite !confidence_lookup. unfold confidence_multiplier.
    rewrite !decide_False by done. reflexivity.
Qed.

Lemma unknown_outlook_and_confidence_witness :
  adjusted_rate (mkZone 4 "Old Town" "STABLE" "HIGH") "stocks"
  = adjusted_rate (mkZone 4 "Old Town" "MODERATE" "HIGH") "stocks" /\
  adjusted_rate (mkZone 4 "Old Town" "LOW" "UNKNOWN") "stocks"
  = adjusted_rate (mkZone 4 "Old Town" "LOW" "MEDIUM") "stocks".
Proof.
  split.
  - apply (unknown_outlook_and_confidence (mkZone 4 "Old Town" "STABLE" "HIGH") "stocks");
      discriminate.
  - apply (unknown_outlook_and_confidence (mkZone 4 "Old Town" "LOW" "UNKNOWN") "stocks");
      discriminate.
Defined.

(** X27. Over a horizon of 0 months the zone ROI of a non-zero amount of up
    to [2^53] in magnitude returns the amount itself as the future value, in
    the base case and in both stress scenarios, with total returns and ROI
    0. *)
Theorem zone_roi_at_zero_horizon zone investment_amount investment_type :
  investment_amount <> 0%Z ->
  (Z.abs investment_amount <= Doubles.max_exact)%Z ->
  exists r,
    calculate_roi_for_zone zone investment_amount investment_type 0 = Ok r /\
    future_value r == inject_Z investment_amount /\
    st_future_value (optimistic r) == inject_Z investment_amount /\
    st_future_value (pessimistic r) == inject_Z investment_amount /\
    total_returns r == 0 /\ roi_percentage r == 0.
Proof.
  intros Ha _. rewrite calculate_roi_for_zone_value by done.
  eexists. split; [reflexivity |].
  cbn [future_value optimistic pessimistic st_future_value total_returns roi_percentage].
  assert (~ inject_Z investment_amount == 0) as Ha'.
  { intros H. apply Ha. by apply (inject_Z_injective _ 0%Z). }
  assert (forall r, inject_Z investment_amount * (1 + r / 100 / 12) ^ 0
                    == inject_Z investment_amount) as Hv
    by (intros r; rewrite Qpower_0_r; ring).
  repeat split.
  - rewrite (round2_proper _ _ (Hv _)). apply round2_integer.
  - rewrite (round2_proper _ _ (Hv _)). apply round2_integer.
  - rewrite (round2_proper _ _ (Hv _)). apply round2_integer.
  - rewrite (round2_proper _ 0); [by vm_compute | rewrite Hv; ring].
  - rewrite (round2_proper _ 0); [by vm_compute | rewrite Hv; field; done].
Qed.

Lemma zone_roi_at_zero_horizon_witness :
  exists r,
    calculate_roi_for_zone (mkZone 1 "Whitefield" "HIGH" "HIGH") 1000000 "real_estate" 0
    = Ok r /\
    future_value r == inject_Z 1000000 /\
    st_future_value (optimistic r) == inject_Z 1000000 /\
    st_future_value (pessimistic r) == inject_Z 1000000 /\
    total_returns r == 0 /\ roi_percentage r == 0.
Proof. apply zone_roi_at_zero_horizon; [discriminate | by vm_compute]. Defined.

Lemma round2_above_integer n x : inject_Z n <= x -> inject_Z n <= round2 x.
Proof. intros H. apply round2_mono in H. by rewrite round2_integer in H. Qed.

(** X28. The zone ROI never shows a loss: for a positive amount of up to
    [2^53] over a horizon of up to a thousand years that is not negative,
    the pessimistic future value is at least the amount, and the total
    returns and the ROI are not negative. *)
Theorem zone_roi_never_loses zone investment_amount investment_type time_horizon :
  (0 < investment_amount <= Doubles.max_exact)%Z ->
  (0 <= time_horizon <= Doubles.max_months)%Z ->
  exists r,
    calculate_roi_for_zone zone investment_amount investment_type time_horizon = Ok r /\
    inject_Z investment_amount <= st_future_value (pessimistic r) /\
    inject_Z investment_amount <= future_value r /\
    0 <= total_returns r /\ 0 <= roi_percentage r /\
    0 <= st_roi_percentage (pessimistic r).
Proof.
  intros [Ha _] [Hh _]. rewrite calculate_roi_for_zone_value by lia.
  eexists. split; [reflexivity |].
  cbn [future_value pessimistic st_future_value total_returns roi_percentage
       st_roi_percentage].
  pose proof (adjusted_rate_bounds zone investment_type) as Hb.
  set (rate := adjusted_rate zone investment_type) in *.
  set (a := inject_Z investment_amount).
  assert (0 < a) as Ha' by (subst a; by rewrite <- (Zlt_Qlt 0)).
  assert (forall r, 0 <= r -> a <= a * (1 + r / 100 / 12) ^ time_horizon) as Hgrow.
  { intros r Hr.
    assert (1 <= (1 + r / 100 / 12) ^ time_horizon) as H1
      by (apply Qpower_1_le; [qlra | done]).
    set (p := (1 + r / 100 / 12) ^ time_horizon) in *. nra. }
  assert (forall v, a <= v -> 0 <= (v - a) / a * 100) as Hroi.
  { intros v Hv. apply Qmult_le_0_compat; [| lra]. apply Qle_shift_div_l; lra. }
  repeat split.
  - apply round2_above_integer, Hgrow. lra.
  - apply round2_above_integer, Hgrow. lra.
  - apply (round2_above_integer 0). change (inject_Z 0) with 0.
    assert (a <= a * (1 + rate / 100 / 12) ^ time_horizon) by (apply Hgrow; lra). lra.
  - apply (round2_above_integer 0), Hroi, Hgrow. lra.
  - apply (round2_above_integer 0), Hroi, Hgrow. lra.
Qed.

Lemma zone_roi_never_loses_witness :
  exists r,
    calculate_roi_for_zone (mkZone 2 "Hinjewadi" "LOW" "LOW") 500000 "bonds" 36 = Ok r /\
    inject_Z 500000 <= st_future_value (pessimistic r) /\
    inject_Z 500000 <= future_value r /\
    0 <= total_returns r /\ 0 <= roi_percentage r /\
    0 <= st_roi_percentage (pessimistic r).
Proof.
  apply zone_roi_never_loses; unfold Doubles.max_exact, Doubles.max_months; lia.
Defined.

Lemma zone_stress_band_brackets_base_witness :
  exists r,
    calculate_roi_for_zone (mkZone 1 "Whitefield" "HIGH" "MEDIUM") 1000000 "real_estate" 60
    = Ok r /\
    st_future_value (pessimistic r) <= future_value r /\
    future_value r <= st_future_value (optimistic r).
Proof. apply zone_stress_band_brackets_base; lia. Defined.

End ZoneExtras.
